(** * IoT anomaly dashboard: the snapshot helper and the Streamlit script

    A shallow embedding of [setup_streamlit.py] and [streamlit_app.py].
    Both files are straight-line scripts over ambient state (the file
    system, the [__main__] module, the server's [st.cache_data] cache,
    [st.session_state], the widgets), so the embedding is an explicit
    environment record, a session dictionary threaded through a small
    state/writer/exception monad, and a trace of the calls the script
    makes on the outside world, from which the files and the cache after
    a run are read off. *)

From stdpp Require Import base option list strings gmap.
From Stdlib Require Import ZArith.

(** ** Python values *)

(** Finite binary floats are kept as mantissa and exponent; nothing here
    computes with them. *)
Inductive pyfloat :=
  | FNaN
  | FInf (negative : bool)
  | FFin (mantissa exponent : Z).

(** Scalars and dicts.  A pandas [Series] (one row of a DataFrame, or the
    ['anomaly'] payload of an explanation) answers [.get(key, default)]
    and [[key]] like a dict over its index, and is a [PyDict] too. *)
#[warnings="-register-all"]
Inductive pyval :=
  | PyNone
  | PyBool (b : bool)
  | PyInt (z : Z)
  | PyFloat (f : pyfloat)
  | PyStr (s : string)
  | PyTime (stamp : string)
  | PyNaT
  | PyDict (d : gmap string pyval).

(** Top-level objects: a value, a DataFrame (its rows, in order), or an
    object the scripts only pass along (SHAP arrays, explainer, scaler). *)
Inductive pyobj :=
  | Val (v : pyval)
  | Frame (rows : list (gmap string pyval))
  | Opaque (tag : string).

Definition is_none (o : pyobj) : bool :=
  match o with Val PyNone => true | _ => false end.

(** ** Exceptions

    Only instances of [Exception] are modelled, so [except Exception] and
    a bare [except:] catch every [exn]; [except ImportError] looks at the
    class. *)
Inductive exn_class :=
  | ImportError | KeyError | TypeError | ValueError | AttributeError
  | OSError | PicklingError | UnpicklingError
  | OtherError (name : string).

Record exn := Exn { exn_class_of : exn_class; exn_msg : string }.

Definition is_ImportError (e : exn) : bool :=
  match exn_class_of e with ImportError => true | _ => false end.

Definition any_Exception (e : exn) : bool := true.

(** What a call yields: a value or an exception. *)
Inductive outcome (A : Type) :=
  | Returns (a : A)
  | Raises (e : exn).
Arguments Returns {A} a.
Arguments Raises {A} e.

(** ** Truthiness, [in], [[]], [pd.notna] *)

Definition float_truthy (f : pyfloat) : bool :=
  match f with FFin m _ => negb (m =? 0)%Z | _ => true end.

Definition truthy (v : pyval) : bool :=
  match v with
  | PyNone => false
  | PyBool b => b
  | PyInt z => negb (z =? 0)%Z
  | PyFloat f => float_truthy f
  | PyStr s => negb (String.eqb s EmptyString)
  | PyTime _ | PyNaT => true
  | PyDict d => negb (bool_decide (d = ∅))
  end.

(** [bool(obj)]: a DataFrame refuses to be tested. *)
Definition truthy_obj (o : pyobj) : outcome bool :=
  match o with
  | Val v => Returns (truthy v)
  | Frame _ => Raises (Exn ValueError "The truth value of a DataFrame is ambiguous")
  | Opaque _ => Returns true
  end.

Definition is_substring (needle hay : string) : bool :=
  match String.index 0 needle hay with Some _ => true | None => false end.

(** [key in v] *)
Definition py_contains (key : string) (v : pyval) : outcome bool :=
  match v with
  | PyDict d => Returns (bool_decide (is_Some (d !! key)))
  | PyStr s => Returns (is_substring key s)
  | _ => Raises (Exn TypeError "argument is not iterable")
  end.

(** [v[key]] *)
Definition py_getitem (key : string) (v : pyval) : outcome pyval :=
  match v with
  | PyDict d =>
      match d !! key with
      | Some x => Returns x
      | None => Raises (Exn KeyError key)
      end
  | PyStr _ => Raises (Exn TypeError "string indices must be integers")
  | _ => Raises (Exn TypeError "object is not subscriptable")
  end.

(** [v.get(key, dflt)] *)
Definition py_get (key : string) (dflt : pyval) (v : pyval) : outcome pyval :=
  match v with
  | PyDict d => Returns (default dflt (d !! key))
  | _ => Raises (Exn AttributeError "object has no attribute 'get'")
  end.

Definition pd_notna (v : pyval) : bool :=
  match v with
  | PyNone | PyNaT | PyFloat FNaN => false
  | _ => true
  end.

(** ** Rendered text

    An f-string is the list of its pieces; interpolated values stay
    symbolic, so no number or timestamp printer is part of the model. *)
Inductive frag :=
  | Lit (s : string)
  | FmtNat (n : nat)                (* {n} *)
  | FmtVal (v : pyval)              (* {v} *)
  | FmtObj (o : pyobj)              (* {o} *)
  | FmtExn (e : exn)                (* {e}, {str(e)} *)
  | FmtPercent2 (v : pyval).        (* {v:.2%} *)

Definition text := list frag.

(** [f"{v:.2%}"]: numbers (and [bool], an [int]) format, [nan] as
    [nan%]; a [Timestamp] hands the format string to [strftime] and comes
    back as text; a string does not know the format code; [NaT] refuses
    [strftime]; [None] and a dict do not take a format string. *)
Definition format_percent2 (v : pyval) : outcome text :=
  match v with
  | PyBool _ | PyInt _ | PyFloat _ | PyTime _ => Returns [FmtPercent2 v]
  | PyStr _ => Raises (Exn ValueError "Unknown format code '%'")
  | PyNaT => Raises (Exn ValueError "NaTType does not support strftime")
  | PyNone | PyDict _ =>
      Raises (Exn TypeError "unsupported format string")
  end.

(** ** The script monad: session state, trace, exceptions and [st.stop()] *)

Inductive result (A : Type) :=
  | Ok (a : A)
  | Raised (e : exn)
  | Stopped.
Arguments Ok {A} a.
Arguments Raised {A} e.
Arguments Stopped {A}.

Record script (S E A : Type) := Script { run : S → list E * S * result A }.
Arguments Script {S E A} run.
Arguments run {S E A} _ _.

Section script_ops.
Context {S E : Type}.

Definition ret {A} (a : A) : script S E A := Script (λ s, ([], s, Ok a)).

Definition bind {A B} (m : script S E A) (k : A → script S E B) : script S E B :=
  Script (λ s,
    match run m s with
    | (t1, s1, Ok a) => let '(t2, s2, r) := run (k a) s1 in (t1 ++ t2, s2, r)
    | (t1, s1, Raised e) => (t1, s1, Raised e)
    | (t1, s1, Stopped) => (t1, s1, Stopped)
    end).

Definition emit (ev : E) : script S E unit := Script (λ s, ([ev], s, Ok tt)).
Definition raise {A} (e : exn) : script S E A := Script (λ s, ([], s, Raised e)).
Definition stop {A} : script S E A := Script (λ s, ([], s, Stopped)).
Definition get_state : script S E S := Script (λ s, ([], s, Ok s)).
Definition modify (f : S → S) : script S E unit := Script (λ s, ([], f s, Ok tt)).

Definition lift {A} (o : outcome A) : script S E A :=
  match o with Returns a => ret a | Raises e => raise e end.

(** [try: body / except <catches> as e: handler e].  What the body did
    before raising stays done; [st.stop()] is not an exception. *)
Definition try_except {A} (catches : exn → bool)
    (body : script S E A) (handler : exn → script S E A) : script S E A :=
  Script (λ s,
    match run body s with
    | (t1, s1, Raised e) =>
        if catches e
        then let '(t2, s2, r) := run (handler e) s1 in (t1 ++ t2, s2, r)
        else (t1, s1, Raised e)
    | other => other
    end).
End script_ops.

Notation "x <- m ;; k" := (bind m (λ x, k))
  (at level 100, m at next level, k at level 200, right associativity, only parsing).
Notation "m ;;; k" := (bind m (λ _, k))
  (at level 100, k at level 200, right associativity, only parsing).

Definition trace_of {S E A} (r : list E * S * result A) : list E := r.1.1.
Definition state_of {S E A} (r : list E * S * result A) : S := r.1.2.
Definition result_of {S E A} (r : list E * S * result A) : result A := r.2.

(** ** setup_streamlit.py *)

Module SetupStreamlit.

(** The module's [globals()], and how [open(path, 'wb')] and
    [pickle.dump] fare: [None] when the call succeeds. *)
Record env := Env {
  globals : gmap string pyobj;
  open_wb : string → option exn;
  pickle_dump : pyobj → option exn;
}.

Inductive event :=
  | OpenWb (path : string)                  (* the file is created or truncated *)
  | PickleDump (path : string) (obj : pyobj) (* the object is written to it *)
  | Print (t : text).

Definition py_open_wb (w : env) (path : string) : script unit event unit :=
  match open_wb w path with
  | Some e => raise e
  | None => emit (OpenWb path)
  end.

Definition py_pickle_dump (w : env) (path : string) (obj : pyobj) : script unit event unit :=
  match pickle_dump w obj with
  | Some e => raise e
  | None => emit (PickleDump path obj)
  end.

(** [with open(path, 'wb') as f: pickle.dump(obj, f)] *)
Definition dump_to (w : env) (path : string) (obj : pyobj) : script unit event unit :=
  py_open_wb w path ;;;
  py_pickle_dump w path obj.

Definition save_for_streamlit (w : env) : script unit event unit :=
  try_except any_Exception
    ((match globals w !! "full_pivot_df" with
      | Some full_pivot_df =>
          dump_to w "full_pivot_df.pkl" full_pivot_df ;;;
          emit (Print [Lit "✓ Saved full_pivot_df.pkl"])
      | None =>
          match globals w !! "test_pivot_df" with
          | Some test_pivot_df =>
              dump_to w "test_pivot_df.pkl" test_pivot_df ;;;
              emit (Print [Lit "✓ Saved test_pivot_df.pkl"])
          | None => ret tt
          end
      end) ;;;
     emit (Print [Lit "✓ Functions will be imported directly from notebook context"]) ;;;
     emit (Print [Lit "
To use Streamlit app:"]) ;;;
     emit (Print [Lit "1. Make sure this script has run"]) ;;;
     emit (Print [Lit "2. Run: streamlit run streamlit_app.py"]))
    (λ e, emit (Print [Lit "Error: "; FmtExn e])).

Definition touches_file (ev : event) : bool :=
  match ev with OpenWb _ | PickleDump _ _ => true | Print _ => false end.

Definition closing_prints : list event :=
  [ Print [Lit "✓ Functions will be imported directly from notebook context"];
    Print [Lit "
To use Streamlit app:"];
    Print [Lit "1. Make sure this script has run"];
    Print [Lit "2. Run: streamlit run streamlit_app.py"] ].

End SetupStreamlit.

(** ** streamlit_app.py *)

Module StreamlitApp.

(** *** The outside world *)

(** A path that exists holds a pickle, or cannot be opened or
    unpickled. *)
Inductive file_state :=
  | Unreadable (e : exn)
  | Pickled (obj : pyobj).

Record aux_context := Aux {
  shap_values : pyobj;
  X : pyobj;
  explainer : pyobj;
  scaler : pyobj;
}.

(** The two collaborators, as the script calls them:
    [get_anomalies_by_date(date_str, prediction_df)] gives a DataFrame
    or [None]; [explain_single_anomaly(date_str, selected_index,
    prediction_df, shap_values=, X=, explainer=, scaler=)] gives
    whatever it gives.  Either may raise. *)
Definition get_anomalies_fn : Type :=
  pyobj → pyobj → outcome (option (list (gmap string pyval))).
Definition explain_fn : Type :=
  pyobj → nat → pyobj → aux_context → outcome pyval.

(** The [__main__] module: its data attributes by name, and the two
    callables when it defines them. *)
Record main_namespace := MainNs {
  main_vars : gmap string pyobj;
  main_get_anomalies : option get_anomalies_fn;
  main_explain : option explain_fn;
}.

Record env := Env {
  files : gmap string file_state;                        (* missing path: no file *)
  data_cache : option pyobj;
                     (* what [st.cache_data] holds for [load_prediction_data()]
                        when the run starts; [None]: no entry *)
  main_module : option main_namespace;                   (* [None]: [import __main__] raises *)
  anomaly_functions : outcome (get_anomalies_fn * explain_fn);
                     (* [from anomaly_functions import get_anomalies_by_date, explain_single_anomaly] *)
  code_new : outcome (option get_anomalies_fn * option explain_fn);
                     (* [import code_new], then the two [getattr(code_new, _, None)] *)
  pd_strftime : pyval → outcome string;
                     (* [pd.to_datetime(v).strftime('%Y-%m-%d %H:%M:%S')] *)
}.

(** What the widgets return in one run of the script. *)
Record date := Date { year : nat; month : nat; day : nat }.

Record widgets := Widgets {
  date_input : date;                (* [st.sidebar.date_input], within 2011 *)
  find_anomalies_clicked : bool;    (* [st.sidebar.button("Find Anomalies")] *)
  selectbox_choice : nat;           (* the option picked in [st.selectbox] *)
  generate_clicked : bool;          (* [st.button("Generate LLM Explanation")] *)
}.

Definition digit (n : nat) : Ascii.ascii := Ascii.ascii_of_nat (48 + n mod 10).
Definition pad2 (n : nat) : string :=
  String (digit (n / 10)) (String (digit n) EmptyString).
Definition pad4 (n : nat) : string :=
  String (digit (n / 1000)) (String (digit (n / 100)) (pad2 n)).

(** [date_input.strftime("%Y-%m-%d")] *)
Definition strftime_Ymd (d : date) : string :=
  pad4 (year d) +:+ "-" +:+ pad2 (month d) +:+ "-" +:+ pad2 (day d).

(** *** The trace *)

Record summary_row := SummaryRow {
  Index : nat;
  Time : string;
  Activity : pyval;
  Confidence : text;
}.

Inductive event :=
  (* probes of the file system and of modules *)
  | OsPathExists (path : string)
  | OpenRb (path : string)
  | Import (module : string)
  | HasAttr (module attr : string)
  (* [st.cache_data] keeps what [load_prediction_data()] returned *)
  | CacheStore (value : pyobj)
  (* calls of the collaborators *)
  | CallGetAnomalies (date_str prediction_df : pyobj)
  | CallExplain (date_str : pyobj) (selected_index : nat) (prediction_df : pyobj)
                (aux : aux_context)
  (* streamlit *)
  | StSetPageConfig
  | StTitle (t : text)
  | StMarkdown (t : text)
  | StError (t : text)
  | StInfo (t : text)
  | StWarning (t : text)
  | StSuccess (t : text)
  | StSubheader (t : text)
  | StSidebarHeader (t : text)
  | StSidebarDateInput (label : text)
  | StSidebarMarkdown (t : text)
  | StSidebarButton (label : text)
  | StDataframe (rows : list summary_row)
  | StSelectbox (label : text) (options : list nat) (shown : list text)
  | StButton (label : text)
  | StSpinner (t : text)
  | StTextArea (label : text) (value : pyval)
  | StExpander (label : text)
  | StFormattedReport (explanation : string)  (* the line-by-line Markdown of the report *)
  | StColumns (n : nat)
  | StMetric (label : text) (value : text)
  | StException (e : exn).

Abbreviation st_script := (script (gmap string pyobj) event).

Definition set_item (key : string) (o : pyobj) : st_script unit :=
  modify (λ s : gmap string pyobj, <[key := o]> s).

(** [if key not in st.session_state: st.session_state[key] = o] *)
Definition set_if_absent (key : string) (o : pyobj) : st_script unit :=
  modify (λ s : gmap string pyobj,
    match s !! key with Some _ => s | None => <[key := o]> s end).

Definition import_main (w : env) : st_script main_namespace :=
  emit (Import "__main__") ;;;
  match main_module w with
  | Some ns => ret ns
  | None => raise (Exn ImportError "__main__")
  end.

(** *** Lines 1-21: page set-up and session keys *)

Definition page_header : st_script unit :=
  emit StSetPageConfig ;;;
  emit (StTitle [Lit "🔍 IoT Security Anomaly Analysis"]) ;;;
  emit (StMarkdown [Lit "Analyze security anomalies detected in IoT sensor data using LLM-powered explanations"]).

Definition init_session_state : st_script unit :=
  set_if_absent "prediction_df" (Val PyNone) ;;;
  set_if_absent "functions_loaded" (Val (PyBool false)).

(** *** Lines 24-34: [load_prediction_data] *)

(** [with open(path, 'rb') as f: return pickle.load(f)] *)
Definition read_pickle (path : string) (f : file_state) : st_script pyobj :=
  emit (OpenRb path) ;;;
  match f with
  | Unreadable e => raise e
  | Pickled obj => ret obj
  end.

(** Lines 26-34, the function under the decorator. *)
Definition load_prediction_data_body (w : env) : st_script pyobj :=
  emit (OsPathExists "full_pivot_df.pkl") ;;;
  match files w !! "full_pivot_df.pkl" with
  | Some f => read_pickle "full_pivot_df.pkl" f
  | None =>
      emit (OsPathExists "test_pivot_df.pkl") ;;;
      match files w !! "test_pivot_df.pkl" with
      | Some f => read_pickle "test_pivot_df.pkl" f
      | None => ret (Val PyNone)
      end
  end.

(** Line 24, [@st.cache_data] on a function without arguments: the body
    runs only while the server holds no value for it.  The value it
    returns, [None] included, is kept and is what every later call
    returns, in any session, until the server restarts or its cache is
    cleared; a call that raises keeps nothing.  The spinner the
    decorator shows while the body runs is not part of the trace. *)
Definition load_prediction_data (w : env) : st_script pyobj :=
  match data_cache w with
  | Some cached => ret cached
  | None =>
      value <- load_prediction_data_body w ;;
      emit (CacheStore value) ;;;
      ret value
  end.

(** *** Lines 37-55: [load_functions] *)

Definition load_functions (w : env)
    : st_script (option get_anomalies_fn * option explain_fn) :=
  try_except any_Exception
    (emit (Import "code_new") ;;;
     lift (code_new w))
    (λ _,
      try_except any_Exception
        (ns <- import_main w ;;
         ret (main_get_anomalies ns, main_explain ns))
        (λ _, ret (None, None))).

(** *** Lines 57-68: the data, from the loader or from [__main__] *)

Definition load_data (w : env) : st_script pyobj :=
  prediction_df <- load_prediction_data w ;;
  if is_none prediction_df then
    try_except any_Exception
      (ns <- import_main w ;;
       emit (HasAttr "__main__" "full_pivot_df") ;;;
       match main_vars ns !! "full_pivot_df" with
       | Some full_pivot_df => ret full_pivot_df
       | None =>
           emit (HasAttr "__main__" "test_pivot_df") ;;;
           match main_vars ns !! "test_pivot_df" with
           | Some test_pivot_df => ret test_pivot_df
           | None => ret prediction_df
           end
       end)
      (λ _, ret prediction_df)
  else ret prediction_df.

(** *** Lines 70-85: the two functions *)

Definition functions_missing_help : string :=
"
        **To fix this:**
        1. Make sure `anomaly_functions.py` exists in the same directory
        2. Or run the notebook cells that define these functions
        3. The functions should be: `get_anomalies_by_date` and `explain_single_anomaly`
        ".

Definition import_functions (w : env) : st_script (get_anomalies_fn * explain_fn) :=
  try_except is_ImportError
    (emit (Import "anomaly_functions") ;;;
     fns <- lift (anomaly_functions w) ;;
     set_item "functions_loaded" (Val (PyBool true)) ;;;
     ret fns)
    (λ _,
      fns <- load_functions w ;;
      match fns with
      | (Some get_anomalies_by_date, Some explain_single_anomaly) =>
          ret (get_anomalies_by_date, explain_single_anomaly)
      | _ =>
          emit (StError [Lit "❌ Required functions not found!"]) ;;;
          emit (StInfo [Lit functions_missing_help]) ;;;
          stop
      end).

(** *** Lines 87-101: no data, no dashboard *)

Definition data_missing_help : string :=
"
    **To fix this:**
    1. Run your notebook to create `full_pivot_df` or `test_pivot_df`
    2. Save the dataframe to a pickle file:
       ```python
       import pickle
       with open('full_pivot_df.pkl', 'wb') as f:
           pickle.dump(full_pivot_df, f)
       ```
    3. Make sure the pickle file is in the same directory as this app
    ".

Definition data_missing_error : event :=
  StError [Lit "❌ Prediction DataFrame not found!"].

Definition require_prediction_df (prediction_df : pyobj) : st_script unit :=
  if is_none prediction_df then
    emit data_missing_error ;;;
    emit (StInfo [Lit data_missing_help]) ;;;
    stop
  else ret tt.

(** *** Lines 103-121: the sidebar and the Find Anomalies button *)

(** The four assignments under [if st.sidebar.button(...)]. *)
Definition confirm_date (date_str : string) (s : gmap string pyobj) : gmap string pyobj :=
  <["selected_index" := Val PyNone]>
    (<["selected_anomaly" := Val PyNone]>
      (<["anomalies" := Val PyNone]>
        (<["selected_date" := Val (PyStr date_str)]> s))).

Definition sidebar (ui : widgets) : st_script unit :=
  emit (StSidebarHeader [Lit "📅 Select Date"]) ;;;
  emit (StSidebarDateInput [Lit "Choose a date to analyze"]) ;;;
  let date_str := strftime_Ymd (date_input ui) in
  emit (StSidebarMarkdown [Lit "---"]) ;;;
  emit (StSidebarButton [Lit "🔎 Find Anomalies"]) ;;;
  if find_anomalies_clicked ui then modify (confirm_date date_str) else ret tt.

(** *** Lines 141-156: the summary table *)

Definition outcome_bind {A B} (o : outcome A) (k : A → outcome B) : outcome B :=
  match o with Returns a => k a | Raises e => Raises e end.

(** [pd.to_datetime(t).strftime('%Y-%m-%d %H:%M:%S') if pd.notna(t) else 'N/A'] *)
Definition time_text (w : env) (timestamp : pyval) : outcome string :=
  if pd_notna timestamp then pd_strftime w timestamp else Returns "N/A".

(** One turn of the loop over [anomalies.iterrows()]. *)
Definition summary_entry (w : env) (idx : nat) (anomaly : gmap string pyval)
    : outcome summary_row :=
  outcome_bind (py_getitem "Timestamp" (PyDict anomaly)) (λ timestamp,
  let activity := default (PyStr "Unknown") (anomaly !! "Activity") in
  let confidence := default (PyInt 0) (anomaly !! "Prediction_Confidence") in
  outcome_bind (time_text w timestamp) (λ time,
  outcome_bind (format_percent2 confidence) (λ conf,
  Returns (SummaryRow idx time activity conf)))).

Fixpoint summary_from (w : env) (idx : nat) (anomalies : list (gmap string pyval))
    : outcome (list summary_row) :=
  match anomalies with
  | [] => Returns []
  | anomaly :: rest =>
      outcome_bind (summary_entry w idx anomaly) (λ row,
      outcome_bind (summary_from w (S idx) rest) (λ rows,
      Returns (row :: rows)))
  end.

Definition anomaly_summary (w : env) (anomalies : list (gmap string pyval))
    : outcome (list summary_row) :=
  summary_from w 0 anomalies.

(** *** Lines 158-167: the selector *)

(** [format_func] of the selectbox. *)
Definition option_label (row : summary_row) : text :=
  [Lit "Anomaly #"; FmtNat (Index row + 1); Lit " - "; Lit (Time row);
   Lit " ("; FmtVal (Activity row); Lit ")"].

(** [st.selectbox] returns one of its options: the one picked, and the
    first while nothing offered has been picked. *)
Definition selectbox (options : list nat) (choice : nat) : nat :=
  if bool_decide (choice ∈ options) then choice else hd 0 options.

(** *** Lines 169-251: the Generate LLM Explanation button *)

Definition getattr_or_None (ns : main_namespace) (name : string) : pyobj :=
  default (Val PyNone) (main_vars ns !! name).

Definition no_aux : aux_context :=
  Aux (Val PyNone) (Val PyNone) (Val PyNone) (Val PyNone).

(** Lines 173-185. *)
Definition gather_aux (w : env) : st_script aux_context :=
  try_except any_Exception
    (ns <- import_main w ;;
     ret (Aux (getattr_or_None ns "shap_values") (getattr_or_None ns "X")
              (getattr_or_None ns "explainer") (getattr_or_None ns "scaler")))
    (λ _, ret no_aux).

(** [result and 'explanation' in result and result['explanation']] *)
Definition explanation_ok (result : pyval) : outcome bool :=
  if truthy result then
    outcome_bind (py_contains "explanation" result) (λ has,
    if has : bool then
      outcome_bind (py_getitem "explanation" result) (λ explanation,
      Returns (truthy explanation))
    else Returns false)
  else Returns false.

(** [st.metric] takes an int, a float, a str or [None], and refuses
    anything else with an exception of Streamlit's own. *)
Definition metric_value (v : pyval) : outcome text :=
  match v with
  | PyNone | PyBool _ | PyInt _ | PyFloat _ | PyStr _ => Returns [FmtVal v]
  | _ => Raises (Exn (OtherError "StreamlitInvalidParameterTypeError")
                     "not an accepted type for st.metric")
  end.

(** Lines 234-244. *)
Definition show_anomaly_details (w : env) (result : pyval) : st_script unit :=
  has <- lift (py_contains "anomaly" result) ;;
  if has : bool then
    emit (StSubheader [Lit "🔍 Anomaly Details"]) ;;;
    anomaly_data <- lift (py_getitem "anomaly" result) ;;
    emit (StColumns 3) ;;;
    probe <- lift (py_get "Timestamp" PyNone anomaly_data) ;;
    time <- (if pd_notna probe then
               timestamp <- lift (py_get "Timestamp" (PyStr "N/A") anomaly_data) ;;
               lift (pd_strftime w timestamp)
             else ret "N/A") ;;
    emit (StMetric [Lit "Timestamp"] [Lit time]) ;;;
    activity <- lift (py_get "Activity" (PyStr "Unknown") anomaly_data) ;;
    shown <- lift (metric_value activity) ;;
    emit (StMetric [Lit "Activity"] shown) ;;;
    confidence <- lift (py_get "Prediction_Confidence" (PyInt 0) anomaly_data) ;;
    conf <- lift (format_percent2 confidence) ;;
    emit (StMetric [Lit "Confidence"] conf)
  else ret tt.

(** Lines 198-244: the branch taken on a usable result. *)
Definition show_explanation (w : env) (result : pyval) : st_script unit :=
  set_item "selected_anomaly" (Val result) ;;;
  emit (StSubheader [Lit "📊 Anomaly Analysis Report"]) ;;;
  emit (StMarkdown [Lit "---"]) ;;;
  explanation <- lift (py_getitem "explanation" result) ;;
  emit (StTextArea [Lit "Full Report"] explanation) ;;;
  emit (StExpander [Lit "📄 View Formatted Report"]) ;;;
  match explanation with
  | PyStr report => emit (StFormattedReport report)
  | _ => raise (Exn AttributeError "object has no attribute 'split'")
  end ;;;
  show_anomaly_details w result.

Definition generation_failed_error : event :=
  StError [Lit "❌ Failed to generate explanation. Please try again."].

Definition generation_raised_events (e : exn) : list event :=
  [ StError [Lit "❌ Error generating explanation: "; FmtExn e];
    StExpander [Lit "Error Details"];
    StException e ].

Definition generate_explanation (w : env) (explain_single_anomaly : explain_fn)
    (date_str : pyobj) (selected_index : nat) (prediction_df : pyobj) : st_script unit :=
  emit (StSpinner [Lit "🤖 Generating explanation with TinyLlama... This may take a minute."]) ;;;
  try_except any_Exception
    (aux <- gather_aux w ;;
     emit (CallExplain date_str selected_index prediction_df aux) ;;;
     result <- lift (explain_single_anomaly date_str selected_index prediction_df aux) ;;
     ok <- lift (explanation_ok result) ;;
     if ok : bool then show_explanation w result
     else emit generation_failed_error)
    (λ e,
      emit (StError [Lit "❌ Error generating explanation: "; FmtExn e]) ;;;
      emit (StExpander [Lit "Error Details"]) ;;;
      emit (StException e)).

(** *** Lines 123-275: the main pane *)

Definition no_anomalies_events (date_str : pyobj) : list event :=
  [ StWarning [Lit "⚠️ No anomalies detected on "; FmtObj date_str];
    StInfo [Lit "Try selecting a different date."] ].

(** Lines 134-251: a date with anomalies. *)
Definition show_anomalies (w : env) (ui : widgets) (explain_single_anomaly : explain_fn)
    (date_str prediction_df : pyobj) (anomalies : list (gmap string pyval))
    : st_script unit :=
  set_item "anomalies" (Frame anomalies) ;;;
  emit (StSuccess [Lit "✅ Found "; FmtNat (length anomalies);
                   Lit " anomaly/anomalies on "; FmtObj date_str]) ;;;
  emit (StSubheader [Lit "📋 Detected Anomalies"]) ;;;
  summary <- lift (anomaly_summary w anomalies) ;;
  emit (StDataframe summary) ;;;
  emit (StSubheader [Lit "🎯 Select Anomaly to Analyze"]) ;;;
  let anomaly_indices := seq 0 (length anomalies) in
  emit (StSelectbox [Lit "Choose an anomaly to get detailed LLM explanation:"]
                    anomaly_indices (option_label <$> summary)) ;;;
  let selected_index := selectbox anomaly_indices (selectbox_choice ui) in
  set_item "selected_index" (Val (PyInt (Z.of_nat selected_index))) ;;;
  emit (StButton [Lit "🚀 Generate LLM Explanation"]) ;;;
  if generate_clicked ui
  then generate_explanation w explain_single_anomaly date_str selected_index prediction_df
  else ret tt.

(** Lines 127-256: the query and what follows it. *)
Definition query_and_show (w : env) (ui : widgets)
    (fns : get_anomalies_fn * explain_fn) (date_str prediction_df : pyobj)
    : st_script unit :=
  try_except any_Exception
    (emit (CallGetAnomalies date_str prediction_df) ;;;
     anomalies <- lift (fns.1 date_str prediction_df) ;;
     match anomalies with
     | None | Some [] =>
         emit (StWarning [Lit "⚠️ No anomalies detected on "; FmtObj date_str]) ;;;
         emit (StInfo [Lit "Try selecting a different date."])
     | Some rows => show_anomalies w ui fns.2 date_str prediction_df rows
     end)
    (λ e,
      emit (StError [Lit "❌ Error loading anomalies: "; FmtExn e]) ;;;
      emit (StExpander [Lit "Error Details"]) ;;;
      emit (StException e)).

Definition dquote : string := String (Ascii.ascii_of_nat 34) EmptyString.

Definition how_to_use : string :=
"
    ### How to use:
    1. **Select a date** in the sidebar (default: 2011-06-01)
    2. Click **" +:+ dquote +:+ "Find Anomalies" +:+ dquote +:+ "** to see detected anomalies for that date
    3. **Choose an anomaly** from the dropdown list
    4. Click **" +:+ dquote +:+ "Generate LLM Explanation" +:+ dquote +:+ "** to get detailed AI-powered analysis
    
    ### Features:
    - 🔍 View all anomalies detected on a specific date
    - 🤖 Get AI-powered explanations using TinyLlama LLM
    - 📊 See SHAP feature contributions in the analysis
    - 🎯 Understand why each anomaly was flagged as suspicious
    - 📈 View confidence scores and sensor patterns
    ".

Definition welcome_events : list event :=
  [ StInfo [Lit "👈 Please select a date and click 'Find Anomalies' to begin analysis"];
    StMarkdown [Lit how_to_use] ].

(** ['selected_date' in st.session_state and st.session_state['selected_date']] *)
Definition date_is_selected (s : gmap string pyobj) : outcome bool :=
  match s !! "selected_date" with
  | Some selected_date => truthy_obj selected_date
  | None => Returns false
  end.

Definition main_pane (w : env) (ui : widgets)
    (fns : get_anomalies_fn * explain_fn) (prediction_df : pyobj) : st_script unit :=
  s <- get_state ;;
  selected <- lift (date_is_selected s) ;;
  if selected : bool then
    let date_str := default (Val PyNone) (s !! "selected_date") in
    query_and_show w ui fns date_str prediction_df
  else
    emit (StInfo [Lit "👈 Please select a date and click 'Find Anomalies' to begin analysis"]) ;;;
    emit (StMarkdown [Lit how_to_use]).

Definition footer : st_script unit :=
  emit (StMarkdown [Lit "---"]) ;;;
  emit (StMarkdown [Lit "**IoT Security Anomaly Detection System** | Powered by TinyLlama LLM"]).

(** *** The script, top to bottom *)

(** Lines 1-101: everything that must succeed before a widget shows. *)
Definition prologue (w : env) : st_script (get_anomalies_fn * explain_fn * pyobj) :=
  page_header ;;;
  init_session_state ;;;
  prediction_df <- load_data w ;;
  fns <- import_functions w ;;
  require_prediction_df prediction_df ;;;
  ret (fns, prediction_df).

(** Lines 103-279. *)
Definition dashboard (w : env) (ui : widgets)
    (fns : get_anomalies_fn * explain_fn) (prediction_df : pyobj) : st_script unit :=
  sidebar ui ;;;
  main_pane w ui fns prediction_df ;;;
  footer.

Definition app (w : env) (ui : widgets) : st_script unit :=
  ctx <- prologue w ;;
  dashboard w ui ctx.1 ctx.2.

End StreamlitApp.

(** * Vocabulary of the properties *)

Import StreamlitApp.

(** Every event a script can emit, from any state, satisfies [P]. *)
Definition emits_only {S E A} (P : E → Prop) (m : script S E A) : Prop :=
  ∀ s, Forall P (trace_of (run m s)).

(** A script that leaves the state as it found it. *)
Definition keeps_state {S E A} (m : script S E A) : Prop :=
  ∀ s, state_of (run m s) = s.

(** ** Data sources of the dashboard *)

Inductive source := FileFull | FileTest | MainFull | MainTest.

Definition priority : list source := [FileFull; FileTest; MainFull; MainTest].

Definition rank (src : source) : nat :=
  match src with FileFull => 0 | FileTest => 1 | MainFull => 2 | MainTest => 3 end.

(** The source an event of the trace looks at. *)
Definition probed (ev : event) : option source :=
  match ev with
  | OsPathExists p | OpenRb p =>
      if String.eqb p "full_pivot_df.pkl" then Some FileFull
      else if String.eqb p "test_pivot_df.pkl" then Some FileTest
      else None
  | HasAttr m a =>
      if negb (String.eqb m "__main__") then None
      else if String.eqb a "full_pivot_df" then Some MainFull
      else if String.eqb a "test_pivot_df" then Some MainTest
      else None
  | _ => None
  end.

Fixpoint ascending (l : list nat) : bool :=
  match l with
  | a :: (b :: _) as rest => (a <=? b) && ascending rest
  | _ => true
  end.

(** The sources probed, in the order the trace probes them. *)
Definition probe_ranks (t : list event) : list nat := rank <$> omap probed t.

Definition file_content (w : env) (path : string) : option pyobj :=
  match files w !! path with
  | Some (Pickled o) => Some o
  | _ => None
  end.

Definition attr_content (w : env) (name : string) : option pyobj :=
  match main_module w with
  | Some ns => main_vars ns !! name
  | None => None
  end.

(** What a source holds, when it is there and can be read. *)
Definition content (w : env) (src : source) : option pyobj :=
  match src with
  | FileFull => file_content w "full_pivot_df.pkl"
  | FileTest => file_content w "test_pivot_df.pkl"
  | MainFull => attr_content w "full_pivot_df"
  | MainTest => attr_content w "test_pivot_df"
  end.

(** A source resolves when it can be read and holds something. *)
Definition resolves (w : env) (src : source) : option pyobj :=
  match content w src with
  | Some o => if is_none o then None else Some o
  | None => None
  end.

Fixpoint first_resolving (w : env) (srcs : list source) : option pyobj :=
  match srcs with
  | [] => None
  | src :: rest =>
      match resolves w src with
      | Some o => Some o
      | None => first_resolving w rest
      end
  end.

(** "The first source that resolves wins": the script goes on with what
    the first resolving source of the priority list holds. *)
Definition first_resolved_wins (w : env) : Prop :=
  ∀ o s, first_resolving w priority = Some o →
         result_of (run (load_data w) s) = Ok o.

(** The file the loader settles on: the first of the two that exists. *)
Definition chosen_file (w : env) : option file_state :=
  match files w !! "full_pivot_df.pkl" with
  | Some f => Some f
  | None => files w !! "test_pivot_df.pkl"
  end.

(** The table [__main__] offers: its first defined attribute of the two. *)
Definition in_memory_table (w : env) : pyobj :=
  match attr_content w "full_pivot_df" with
  | Some o => o
  | None => default (Val PyNone) (attr_content w "test_pivot_df")
  end.

(** The file stage: the value the server has kept for the loader when
    it has one, and otherwise what the chosen file gives. *)
Definition file_stage (w : env) : result pyobj :=
  match data_cache w with
  | Some cached => Ok cached
  | None =>
      match chosen_file w with
      | Some (Unreadable e) => Raised e
      | Some (Pickled o) => Ok o
      | None => Ok (Val PyNone)
      end
  end.

(** Selection by presence: the file stage decides, and memory is asked
    only when the file stage gave [None]. *)
Definition first_present (w : env) : result pyobj :=
  match file_stage w with
  | Ok o => if is_none o then Ok (in_memory_table w) else Ok o
  | other => other
  end.

(** What the server's cache holds for the loader once a run has left the
    trace [t]. *)
Definition cache_event (cache : option pyobj) (ev : event) : option pyobj :=
  match ev with CacheStore value => Some value | _ => cache end.

Definition cache_after (w : env) (t : list event) : option pyobj :=
  foldl cache_event (data_cache w) t.

(** The same world with another content of the server's cache. *)
Definition with_cache (cache : option pyobj) (w : env) : env :=
  Env (files w) cache (main_module w) (anomaly_functions w) (code_new w) (pd_strftime w).

Definition is_cache_store (ev : event) : bool :=
  match ev with CacheStore _ => true | _ => false end.

(** Both pickle files absent and no table in [__main__]. *)
Definition all_sources_absent (w : env) : Prop :=
  files w !! "full_pivot_df.pkl" = None ∧
  files w !! "test_pivot_df.pkl" = None ∧
  attr_content w "full_pivot_df" = None ∧
  attr_content w "test_pivot_df" = None.

(** Whatever is stored under the four names is data, not [None]. *)
Definition sources_hold_data (w : env) : Prop :=
  ∀ src, content w src ≠ Some (Val PyNone).

(** The two collaborators can be found (lines 70-85 go through). *)
Definition functions_found (w : env) : Prop :=
  ∀ s, ∃ t s' fns, run (import_functions w) s = (t, s', Ok fns).

(** "The workflow reports data unavailability only when every source
    fails to resolve (both pickle files absent and no in-memory table in
    [__main__]), and in that case it refuses to proceed: it surfaces an
    error with corrective instructions and halts" before the workflow. *)
Definition unavailability_as_claimed (w : env) : Prop :=
  ∀ ui s,
    let r := run (app w ui) s in
    (data_missing_error ∈ trace_of r → all_sources_absent w) ∧
    (all_sources_absent w →
       data_missing_error ∈ trace_of r ∧ result_of r = Stopped).

(** Date selection, anomaly query, anomaly selection, explanation. *)
Definition is_workflow_event (ev : event) : bool :=
  match ev with
  | StSidebarDateInput _ | StSidebarButton _ | CallGetAnomalies _ _
  | StSelectbox _ _ _ | StButton _ | CallExplain _ _ _ _ => true
  | _ => false
  end.

(** ** The snapshot helper *)

(** The exception [save_for_streamlit] meets, if any: opening or dumping
    the one table it picks. *)
Definition first_failure (w : SetupStreamlit.env) : option exn :=
  let attempt path obj :=
    match SetupStreamlit.open_wb w path with
    | Some e => Some e
    | None => SetupStreamlit.pickle_dump w obj
    end in
  match SetupStreamlit.globals w !! "full_pivot_df" with
  | Some obj => attempt "full_pivot_df.pkl" obj
  | None =>
      match SetupStreamlit.globals w !! "test_pivot_df" with
      | Some obj => attempt "test_pivot_df.pkl" obj
      | None => None
      end
  end.

(** A notebook that defines neither table, on a disk that works. *)
Definition empty_notebook : SetupStreamlit.env :=
  SetupStreamlit.Env ∅ (λ _, None) (λ _, None).

(** A notebook with the full table, on a disk that refuses to open files. *)
Definition read_only_disk : SetupStreamlit.env :=
  SetupStreamlit.Env {[ "full_pivot_df" := Frame [] ]}
    (λ _, Some (Exn OSError "Read-only file system")) (λ _, None).

(** ** Sample data *)

Definition sample_row (stamp activity : string) (confidence : pyfloat)
    : gmap string pyval :=
  {[ "Timestamp" := PyTime stamp;
     "Activity" := PyStr activity;
     "Prediction_Confidence" := PyFloat confidence ]}.

(** Three anomalies on 2011-06-01. *)
Definition sample_rows : list (gmap string pyval) :=
  [ sample_row "2011-06-01 08:15:00" "Kitchen" (FFin 7 (-3));
    sample_row "2011-06-01 13:40:00" "Bathroom" (FFin 3 (-2));
    sample_row "2011-06-01 23:05:00" "Bedroom" (FFin 15 (-4)) ].

Definition sample_get_anomalies : get_anomalies_fn :=
  λ date_str _,
    match date_str with
    | Val (PyStr d) =>
        if String.eqb d "2011-06-01" then Returns (Some sample_rows)
        else Returns (Some [])
    | _ => Raises (Exn TypeError "date_str must be a string")
    end.

(** A generator that answers with [{explanation: "X", anomaly: record}]. *)
Definition sample_explain : explain_fn :=
  λ _ index _ _,
    match sample_rows !! index with
    | Some record =>
        Returns (PyDict {[ "explanation" := PyStr "X"; "anomaly" := PyDict record ]})
    | None => Raises (Exn (OtherError "IndexError") "single positional indexer is out-of-bounds")
    end.

Definition sample_strftime (v : pyval) : outcome string :=
  match v with
  | PyTime stamp => Returns stamp
  | _ => Raises (Exn ValueError "Unknown datetime string format")
  end.

Definition sample_env (fs : gmap string file_state) (main : option main_namespace) : env :=
  Env fs None main (Returns (sample_get_anomalies, sample_explain))
      (Raises (Exn ImportError "No module named 'code_new'")) sample_strftime.

(** The first snapshot is there but truncated; the second one is fine. *)
Definition corrupt_snapshot_env : env :=
  sample_env
    {[ "full_pivot_df.pkl" := Unreadable (Exn UnpicklingError "pickle data was truncated");
       "test_pivot_df.pkl" := Pickled (Frame sample_rows) ]}
    None.

(** Only the first snapshot is there, and it is fine. *)
Definition snapshot_env : env :=
  sample_env {[ "full_pivot_df.pkl" := Pickled (Frame sample_rows) ]} None.

(** Nothing on disk, nothing in [__main__]. *)
Definition bare_env : env :=
  sample_env ∅ (Some (MainNs ∅ None None)).

(** The analyst picks 2011-06-01 and presses Find Anomalies. *)
Definition find_on_june_1 : widgets :=
  Widgets (Date 2011 6 1) true 0 false.

(** The first snapshot holds a pickled [None]; the second holds the table. *)
Definition none_snapshot_env : env :=
  sample_env
    {[ "full_pivot_df.pkl" := Pickled (Val PyNone);
       "test_pivot_df.pkl" := Pickled (Frame sample_rows) ]}
    None.

(** A first run on this server found no data; the snapshot has been
    saved since, and the cache is what that run left. *)
Definition cached_none_env : env :=
  let first_run :=
    run (app (sample_env ∅ None) (Widgets (Date 2011 6 1) false 0 false)) ∅ in
  with_cache (cache_after (sample_env ∅ None) (trace_of first_run)) snapshot_env.

(** Nothing on disk, no [__main__], and neither [anomaly_functions] nor
    [code_new] can be imported. *)
Definition no_functions_env : env :=
  Env ∅ None None (Raises (Exn ImportError "No module named 'anomaly_functions'"))
      (Raises (Exn ImportError "No module named 'code_new'")) sample_strftime.

(** ** Fixed pieces of the page *)

Definition sidebar_events : list event :=
  [ StSidebarHeader [Lit "📅 Select Date"];
    StSidebarDateInput [Lit "Choose a date to analyze"];
    StSidebarMarkdown [Lit "---"];
    StSidebarButton [Lit "🔎 Find Anomalies"] ].

Definition footer_events : list event :=
  [ StMarkdown [Lit "---"];
    StMarkdown [Lit "**IoT Security Anomaly Detection System** | Powered by TinyLlama LLM"] ].

(** The session once the sidebar has run. *)
Definition after_sidebar (ui : widgets) (s : gmap string pyobj) : gmap string pyobj :=
  if find_anomalies_clicked ui then confirm_date (strftime_Ymd (date_input ui)) s else s.

(** The query came back with nothing: [None] or an empty DataFrame. *)
Definition finds_nothing (o : outcome (option (list (gmap string pyval)))) : Prop :=
  o = Returns None ∨ o = Returns (Some []).

Definition is_error_event (ev : event) : bool :=
  match ev with StError _ | StException _ => true | _ => false end.

(** The analyst picks 2011-06-02, a day without anomalies. *)
Definition find_on_june_2 : widgets :=
  Widgets (Date 2011 6 2) true 0 false.

(** ** The explanation request *)

(** The auxiliary context lines 173-185 come up with. *)
Definition aux_of (w : env) : aux_context :=
  match main_module w with
  | Some ns =>
      Aux (getattr_or_None ns "shap_values") (getattr_or_None ns "X")
          (getattr_or_None ns "explainer") (getattr_or_None ns "scaler")
  | None => no_aux
  end.

Definition spinner_event : event :=
  StSpinner [Lit "🤖 Generating explanation with TinyLlama... This may take a minute."].

(** What the handler does before it looks at the generator's answer. *)
Definition request_events (w : env) (date_str : pyobj) (selected_index : nat)
    (prediction_df : pyobj) : list event :=
  [ spinner_event; Import "__main__";
    CallExplain date_str selected_index prediction_df (aux_of w) ].

(** The generator failed: it raised, or it returned something falsy, or a
    dict without ['explanation'], or a dict whose ['explanation'] is
    falsy (the empty string). *)
Definition generation_failed (o : outcome pyval) : Prop :=
  match o with
  | Raises _ => True
  | Returns result =>
      truthy result = false ∨
      (∃ d, result = PyDict d ∧ d !! "explanation" = None) ∨
      (∃ d explanation, result = PyDict d ∧ d !! "explanation" = Some explanation ∧
                        truthy explanation = false)
  end.

(** The error the handler shows for a failed generation. *)
Definition failure_events (o : outcome pyval) : list event :=
  match o with
  | Raises e => generation_raised_events e
  | Returns _ => [generation_failed_error]
  end.

(** A generator that answers with an empty explanation. *)
Definition mute_explain : explain_fn :=
  λ _ _ _ _, Returns (PyDict {[ "explanation" := PyStr EmptyString ]}).

(** A generator that runs out of memory. *)
Definition crashing_explain : explain_fn :=
  λ _ _ _ _, Raises (Exn (OtherError "RuntimeError") "CUDA out of memory").

(** A session in which anomaly 1 of 2011-06-01 was explained before. *)
Definition explained_session : gmap string pyobj :=
  {[ "selected_date" := Val (PyStr "2011-06-01");
     "anomalies" := Frame sample_rows;
     "selected_index" := Val (PyInt 1);
     "selected_anomaly" := Val (PyDict {[ "explanation" := PyStr "X" ]}) ]}.

(** Events that show a piece of an explanation report. *)
Definition shows_report (ev : event) : bool :=
  match ev with
  | StSubheader _ | StTextArea _ _ | StFormattedReport _ | StMetric _ _ | StColumns _ => true
  | _ => false
  end.

(** ** Committing an explanation *)




(** ** Choosing an anomaly *)





(** ** Records with missing fields *)

(** The record with the two sentinels written in where a field is
    missing: ['Unknown'] for the activity, 0 for the confidence. *)
Definition with_defaults (anomaly : gmap string pyval) : gmap string pyval :=
  let filled :=
    match anomaly !! "Activity" with
    | Some _ => anomaly
    | None => <["Activity" := PyStr "Unknown"]> anomaly
    end in
  match filled !! "Prediction_Confidence" with
  | Some _ => filled
  | None => <["Prediction_Confidence" := PyInt 0]> filled
  end.

(** The Anomaly Details block, for a given time, activity and confidence. *)
Definition details_events (time : string) (activity confidence : text) : list event :=
  [ StSubheader [Lit "🔍 Anomaly Details"];
    StColumns 3;
    StMetric [Lit "Timestamp"] [Lit time];
    StMetric [Lit "Activity"] activity;
    StMetric [Lit "Confidence"] confidence ].

(** A record that only has its timestamp. *)
Definition bare_record : gmap string pyval :=
  {[ "Timestamp" := PyTime "2011-06-01 08:15:00" ]}.

(** A field is missing from a record when the record has no such key,
    or holds a missing value under it ([None], [NaN], [NaT]), as a row
    of a DataFrame does for an empty cell. *)
Definition field_missing (key : string) (anomaly : gmap string pyval) : bool :=
  match anomaly !! key with
  | Some v => negb (pd_notna v)
  | None => true
  end.

(** "A missing 'Activity' field degrades to 'Unknown' and a missing
    confidence field degrades to 0, rather than failing the rendering":
    the record gets its row in the summary table, with the sentinel for
    each field that is missing. *)
Definition degrades_to_defaults (w : env) (anomaly : gmap string pyval) : Prop :=
  ∃ row, summary_entry w 0 anomaly = Returns row ∧
         (field_missing "Activity" anomaly = true → Activity row = PyStr "Unknown") ∧
         (field_missing "Prediction_Confidence" anomaly = true →
          Confidence row = [FmtPercent2 (PyInt 0)]).

(** A row whose activity and confidence cells are empty ([NaN]). *)
Definition nan_record : gmap string pyval :=
  {[ "Timestamp" := PyTime "2011-06-01 08:15:00";
     "Activity" := PyFloat FNaN;
     "Prediction_Confidence" := PyFloat FNaN ]}.

(** A row of an object column whose empty cells are [None]. *)
Definition none_record : gmap string pyval :=
  {[ "Timestamp" := PyTime "2011-06-01 08:15:00";
     "Activity" := PyNone;
     "Prediction_Confidence" := PyNone ]}.

(** A record without ['Activity'] and without ['Prediction_Confidence']
    whose timestamp is shown as [time]. *)
Definition bare_at (w : env) (record : gmap string pyval) (time : string) : Prop :=
  record !! "Activity" = None ∧
  record !! "Prediction_Confidence" = None ∧
  ∃ timestamp, record !! "Timestamp" = Some timestamp ∧
               time_text w timestamp = Returns time.

(** The row of the summary table for a record that has neither field. *)
Definition bare_row (idx : nat) (time : string) : summary_row :=
  SummaryRow idx time (PyStr "Unknown") [FmtPercent2 (PyInt 0)].

(** The analyst picks the third anomaly of 2011-06-01 and asks for its
    explanation. *)
Definition explain_third : widgets :=
  Widgets (Date 2011 6 1) true 2 true.

(** Nothing is pressed. *)
Definition idle : widgets :=
  Widgets (Date 2011 6 1) false 0 false.

(** ** Vocabulary of the further properties *)

(** A script that never ends in [st.stop()]. *)
Definition never_stops {S E A} (m : script S E A) : Prop :=
  ∀ s, result_of (run m s) ≠ Stopped.

(** A script that always runs to its end: no exception gets out of it
    and it does not stop the page. *)
Definition always_completes {S E} (m : script S E unit) : Prop :=
  ∀ s, result_of (run m s) = Ok tt.

(** A script that only assigns the session keys of [keys]. *)
Definition writes_only {E A} (keys : list string) (m : script (gmap string pyobj) E A) : Prop :=
  ∀ s key, key ∉ keys → state_of (run m s) !! key = s !! key.

(** A script that does not look at the state: what it shows and how it
    ends is the same from any two states. *)
Definition oblivious {S E A} (m : script S E A) : Prop :=
  ∀ s1 s2, trace_of (run m s1) = trace_of (run m s2) ∧
           result_of (run m s1) = result_of (run m s2).

(** The session keys the dashboard assigns. *)
Definition selection_keys : list string :=
  ["selected_date"; "anomalies"; "selected_anomaly"; "selected_index"].

(** *** The disk after the snapshot helper *)

(** A file that was opened for writing and into which nothing was
    dumped is empty, and [pickle.load] of an empty file raises
    [EOFError]. *)
Definition truncated : file_state :=
  Unreadable (Exn (OtherError "EOFError") "Ran out of input").

(** What an event of the helper does to the files: opening for writing
    creates the file or empties it, and a dump that succeeds leaves a
    pickle that [pickle.load] gives back as the object dumped.  A dump
    that raises has no event; the file stays as opening left it. *)
Definition write_event (fs : gmap string file_state) (ev : SetupStreamlit.event)
    : gmap string file_state :=
  match ev with
  | SetupStreamlit.OpenWb path => <[path := truncated]> fs
  | SetupStreamlit.PickleDump path obj => <[path := Pickled obj]> fs
  | SetupStreamlit.Print _ => fs
  end.

(** The files once the helper has run over the files [fs]. *)
Definition disk_after (w : SetupStreamlit.env) (fs : gmap string file_state)
    : gmap string file_state :=
  foldl write_event fs (trace_of (run (SetupStreamlit.save_for_streamlit w) tt)).

(** The dashboard's world with other files. *)
Definition with_files (fs : gmap string file_state) (w : env) : env :=
  Env fs (data_cache w) (main_module w) (anomaly_functions w) (code_new w) (pd_strftime w).

(** The calls of the two collaborators in a trace carry [prediction_df]. *)
Definition called_with (prediction_df : pyobj) (ev : event) : Prop :=
  match ev with
  | CallGetAnomalies _ df | CallExplain _ _ df _ => df = prediction_df
  | _ => True
  end.

Definition is_collaborator_call (ev : event) : bool :=
  match ev with CallGetAnomalies _ _ | CallExplain _ _ _ _ => true | _ => false end.

(** The events shown when the query or the table fails (lines 253-256). *)
Definition loading_failed_events (e : exn) : list event :=
  [ StError [Lit "❌ Error loading anomalies: "; FmtExn e];
    StExpander [Lit "Error Details"];
    StException e ].

(** What is shown of a list of anomalies before its table (lines 134-139). *)
Definition found_events (date_str : pyobj) (n : nat) : list event :=
  [ StSuccess [Lit "✅ Found "; FmtNat n; Lit " anomaly/anomalies on "; FmtObj date_str];
    StSubheader [Lit "📋 Detected Anomalies"] ].

Definition functions_missing_events : list event :=
  [ StError [Lit "❌ Required functions not found!"];
    StInfo [Lit functions_missing_help] ].

(** What [load_functions] comes back with: the attributes of [code_new]
    when it can be imported, those of [__main__] otherwise. *)
Definition fallback_functions (w : env) : option get_anomalies_fn * option explain_fn :=
  match code_new w with
  | Returns fns => fns
  | Raises _ =>
      match main_module w with
      | Some ns => (main_get_anomalies ns, main_explain ns)
      | None => (None, None)
      end
  end.

Definition both_found (fns : option get_anomalies_fn * option explain_fn) : bool :=
  match fns with (Some _, Some _) => true | _ => false end.

(** The file an event of the helper's trace is about. *)
Definition written_path (ev : SetupStreamlit.event) : option string :=
  match ev with
  | SetupStreamlit.OpenWb path | SetupStreamlit.PickleDump path _ => Some path
  | SetupStreamlit.Print _ => None
  end.

(** The table the helper picks, with the file it goes to. *)
Definition picked_table (w : SetupStreamlit.env) : option (string * pyobj) :=
  match SetupStreamlit.globals w !! "full_pivot_df" with
  | Some obj => Some ("full_pivot_df.pkl", obj)
  | None =>
      match SetupStreamlit.globals w !! "test_pivot_df" with
      | Some obj => Some ("test_pivot_df.pkl", obj)
      | None => None
      end
  end.

(** A notebook with both tables, on a disk that works. *)
Definition full_notebook : SetupStreamlit.env :=
  SetupStreamlit.Env {[ "full_pivot_df" := Frame sample_rows; "test_pivot_df" := Frame [] ]}
    (λ _, None) (λ _, None).

(** A notebook with the test table only, on a disk that works. *)
Definition test_notebook : SetupStreamlit.env :=
  SetupStreamlit.Env {[ "test_pivot_df" := Frame sample_rows ]} (λ _, None) (λ _, None).

(** A notebook whose table cannot be pickled. *)
Definition unpicklable_notebook : SetupStreamlit.env :=
  SetupStreamlit.Env {[ "full_pivot_df" := Opaque "generator" ]}
    (λ _, None) (λ _, Some (Exn TypeError "cannot pickle 'generator' object")).

(** *** The session and the widgets across a run *)

(** Every session key the script assigns. *)
Definition session_keys : list string :=
  "prediction_df" :: "functions_loaded" :: selection_keys.

(** The events of an explanation request and of its report. *)
Definition is_explanation_event (ev : event) : bool :=
  match ev with
  | StSpinner _ | CallExplain _ _ _ _ | StTextArea _ _ | StFormattedReport _
  | StColumns _ | StMetric _ _ => true
  | _ => false
  end.

(** The same widgets with another date in the date picker. *)
Definition with_date (d : date) (ui : widgets) : widgets :=
  Widgets d (find_anomalies_clicked ui) (selectbox_choice ui) (generate_clicked ui).

(** What a call of a collaborator was given as [prediction_df]. *)
Definition table_of_call (ev : event) : option pyobj :=
  match ev with
  | CallGetAnomalies _ df | CallExplain _ _ df _ => Some df
  | _ => None
  end.

(** The script runs from a notebook that defines the table and the two
    functions; no module of functions can be imported. *)
Definition notebook_env : env :=
  Env ∅ None
      (Some (MainNs {[ "full_pivot_df" := Frame sample_rows ]}
                    (Some sample_get_anomalies) (Some sample_explain)))
      (Raises (Exn ImportError "No module named 'anomaly_functions'"))
      (Raises (Exn ImportError "No module named 'code_new'")) sample_strftime.

(** [anomaly_functions] is there but fails while it loads. *)
Definition broken_module_env : env :=
  Env ∅ None None (Raises (Exn (OtherError "SyntaxError") "invalid syntax"))
      (Raises (Exn ImportError "No module named 'code_new'")) sample_strftime.

(** The rows of a DataFrame have the columns of the table, all of them:
    a key one row has, every row has. *)
Definition same_columns (rows : list (gmap string pyval)) : Prop :=
  ∀ r1 r2 key, r1 ∈ rows → r2 ∈ rows → is_Some (r1 !! key) → is_Some (r2 !! key).

(** A table that has no ['Timestamp'] column. *)
Definition untimed_rows : list (gmap string pyval) :=
  [ {[ "Activity" := PyStr "Kitchen"; "Prediction_Confidence" := PyFloat (FFin 7 (-3)) ]};
    {[ "Activity" := PyStr "Bathroom"; "Prediction_Confidence" := PyFloat FNaN ]} ].

(** * Properties *)

(** ** Traces of composed scripts *)

Section trace_lemmas.
Context {S E : Type}.
Implicit Types (P : E → Prop).

Lemma emits_only_ret P {A} (a : A) : emits_only (S:=S) P (ret a).
Proof. intros s. constructor. Qed.

Lemma emits_only_raise P {A} (e : exn) : emits_only (S:=S) P (raise (A:=A) e).
Proof. intros s. constructor. Qed.

Lemma emits_only_stop P {A} : emits_only (S:=S) P (stop (A:=A)).
Proof. intros s. constructor. Qed.

Lemma emits_only_get_state P : emits_only (S:=S) P get_state.
Proof. intros s. constructor. Qed.

Lemma emits_only_modify P (f : S → S) : emits_only (S:=S) P (modify f).
Proof. intros s. constructor. Qed.

Lemma emits_only_lift P {A} (o : outcome A) : emits_only (S:=S) P (lift o).
Proof. destruct o; intros s; constructor. Qed.

Lemma emits_only_emit P (ev : E) : P ev → emits_only (S:=S) P (emit ev).
Proof. intros H s. cbn. by constructor. Qed.

Lemma emits_only_bind P {A B} (m : script S E A) (k : A → script S E B) :
  emits_only P m → (∀ a, emits_only (S:=S) P (k a)) → emits_only (S:=S) P (bind m k).
Proof.
  intros Hm Hk s. specialize (Hm s). unfold trace_of in *. cbn.
  destruct (run m s) as [[t1 s1] [a|e|]]; cbn in *; try done.
  specialize (Hk a s1). destruct (run (k a) s1) as [[t2 s2] r]; cbn in *.
  by apply Forall_app.
Qed.

Lemma emits_only_try_except P {A} catches (body : script S E A) handler :
  emits_only P body → (∀ e, emits_only (S:=S) P (handler e)) →
  emits_only (S:=S) P (try_except catches body handler).
Proof.
  intros Hb Hh s. specialize (Hb s). unfold trace_of in *. cbn.
  destruct (run body s) as [[t1 s1] [a|e|]]; cbn in *; try done.
  destruct (catches e); cbn; try done.
  specialize (Hh e s1). destruct (run (handler e) s1) as [[t2 s2] r]; cbn in *.
  by apply Forall_app.
Qed.

Lemma run_bind_ok {A B} (m : script S E A) (k : A → script S E B) s t1 s1 a :
  run m s = (t1, s1, Ok a) →
  run (bind m k) s =
    (t1 ++ trace_of (run (k a) s1), state_of (run (k a) s1), result_of (run (k a) s1)).
Proof.
  intros H. cbn. rewrite H. by destruct (run (k a) s1) as [[t2 s2] r].
Qed.
End trace_lemmas.

Ltac emits_only_step :=
  first
    [ apply emits_only_bind; [| intros ?]
    | apply emits_only_try_except; [| intros ?]
    | apply emits_only_ret | apply emits_only_raise | apply emits_only_stop
    | apply emits_only_get_state | apply emits_only_modify | apply emits_only_lift
    | apply emits_only_emit; cbn; done ].

(** ** setup_streamlit.py *)

(** C10: [save_for_streamlit] never raises to its caller.  Whatever
    opening the file or pickling does, the function returns normally; the
    exception it met, if any, is the last thing it prints; and when
    neither [full_pivot_df] nor [test_pivot_df] is in its globals it
    prints its closing lines and touches no file. *)
Theorem save_for_streamlit_never_raises (w : SetupStreamlit.env) :
  let r := run (SetupStreamlit.save_for_streamlit w) tt in
  result_of r = Ok tt ∧
  (∀ e, first_failure w = Some e →
        last (trace_of r) = Some (SetupStreamlit.Print [Lit "Error: "; FmtExn e])) ∧
  (SetupStreamlit.globals w !! "full_pivot_df" = None →
   SetupStreamlit.globals w !! "test_pivot_df" = None →
   trace_of r = SetupStreamlit.closing_prints ∧
   Forall (λ ev, SetupStreamlit.touches_file ev = false) (trace_of r)).
Proof.
  destruct w as [g op dump]. unfold first_failure. cbn.
  unfold SetupStreamlit.save_for_streamlit, SetupStreamlit.dump_to,
    SetupStreamlit.py_open_wb, SetupStreamlit.py_pickle_dump. cbn.
  destruct (g !! "full_pivot_df") as [full|] eqn:Hfull;
    [| destruct (g !! "test_pivot_df") as [test|] eqn:Htest ];
    repeat match goal with
           | |- context [match op ?p with _ => _ end] => destruct (op p); cbn
           | |- context [match dump ?o with _ => _ end] => destruct (dump o); cbn
           end;
    cbn; split_and!; try done; try (by intros ? [= <-]).
  intros _ _. split; [done | by repeat constructor].
Qed.

Lemma save_for_streamlit_never_raises_witness :
  trace_of (run (SetupStreamlit.save_for_streamlit empty_notebook) tt)
    = SetupStreamlit.closing_prints ∧
  last (trace_of (run (SetupStreamlit.save_for_streamlit read_only_disk) tt))
    = Some (SetupStreamlit.Print
              [Lit "Error: "; FmtExn (Exn OSError "Read-only file system")]).
Proof.
  split.
  - apply (save_for_streamlit_never_raises empty_notebook); reflexivity.
  - apply (save_for_streamlit_never_raises read_only_disk). reflexivity.
Defined.

(** ** Loading the data (lines 24-34 and 57-68) *)

Lemma is_none_true (o : pyobj) : is_none o = true → o = Val PyNone.
Proof. by destruct o as [[]| |]. Qed.

(** What [load_data] hands on, by presence of the sources. *)
Lemma load_data_result (w : env) (s : gmap string pyobj) :
  result_of (run (load_data w) s) = first_present w.
Proof.
  destruct w as [fs [cached|] main af cn strf].
  all: unfold first_present, file_stage, chosen_file, in_memory_table, attr_content,
    load_data, load_prediction_data, load_prediction_data_body, read_pickle, import_main.
  all: cbn.
  2: destruct (fs !! "full_pivot_df.pkl") as [[e1|o1]|]; cbn;
    [| | destruct (fs !! "test_pivot_df.pkl") as [[e2|o2]|]; cbn ].
  all: repeat match goal with
           | o : pyobj |- context [is_none ?o'] =>
               constr_eq o o'; destruct (is_none o) eqn:?; cbn
           end;
    try (destruct main as [[vars g e]|]; cbn;
         [ destruct (vars !! "full_pivot_df") as [m1|]; cbn;
           [| destruct (vars !! "test_pivot_df") as [m2|]; cbn ] |]);
    repeat match goal with
           | H : is_none _ = true |- _ => apply is_none_true in H; subst
           end;
    done.
Qed.

(** C1, as worded, fails: with a first snapshot that exists but cannot be
    unpickled and a second one that holds the table, the second is the
    first source that resolves, yet the script raises the load error of
    the first and never looks at the second. *)
Lemma first_resolved_wins_counterexample :
  ¬ first_resolved_wins corrupt_snapshot_env.
Proof.
  intros H. specialize (H (Frame sample_rows) ∅ eq_refl).
  vm_compute in H. discriminate H.
Qed.

(** C1, amended: the sources are consulted in the fixed order
    [full_pivot_df.pkl], [test_pivot_df.pkl], [__main__.full_pivot_df],
    [__main__.test_pivot_df], and selection is by presence.  On a server
    that has no value cached for the loader, the first snapshot file
    that exists is the only one opened, and what loading it gives
    decides the file stage: its table is the result, and a load error is
    raised instead of falling through; what the loader returns is then
    cached.  On a server that has a cached value, that value stands for
    the file stage and no file is looked at.  The in-memory tables are
    asked only when the file stage gave [None], the first defined
    attribute being taken.  The session is not touched, and the result
    is what a single source holds or held, never a merge. *)
Theorem load_data_by_presence (w : env) (s : gmap string pyobj) :
  let r := run (load_data w) s in
  result_of r = first_present w ∧
  state_of r = s ∧
  ascending (probe_ranks (trace_of r)) = true ∧
  (∀ o, result_of r = Ok o →
        o = Val PyNone ∨ data_cache w = Some o ∨ ∃ src, content w src = Some o) ∧
  (is_Some (files w !! "full_pivot_df.pkl") →
   Forall (λ ev, probed ev ≠ Some FileTest) (trace_of r)) ∧
  (∀ o, result_of (run (load_prediction_data w) s) = Ok o → is_none o = false →
        Forall (λ ev, probed ev ≠ Some MainFull ∧ probed ev ≠ Some MainTest) (trace_of r)) ∧
  (is_Some (data_cache w) →
   Forall (λ ev, probed ev ≠ Some FileFull ∧ probed ev ≠ Some FileTest ∧
                 is_cache_store ev = false) (trace_of r)) ∧
  cache_after w (trace_of r)
    = match data_cache w, file_stage w with
      | None, Ok o => Some o
      | cache, _ => cache
      end.
Proof.
  destruct w as [fs [cached|] main af cn strf].
  all: unfold first_present, file_stage, cache_after, chosen_file, in_memory_table,
    content, file_content, attr_content, load_data, load_prediction_data,
    load_prediction_data_body, read_pickle, import_main.
  all: cbn.
  2: destruct (fs !! "full_pivot_df.pkl") as [[e1|o1]|] eqn:Hfull; cbn;
    [| | destruct (fs !! "test_pivot_df.pkl") as [[e2|o2]|] eqn:Htest; cbn ].
  all: repeat match goal with
           | o : pyobj |- context [is_none ?o'] =>
               constr_eq o o'; destruct (is_none o) eqn:?; cbn
           end;
    try (destruct main as [[vars g e]|]; cbn;
         [ destruct (vars !! "full_pivot_df") as [m1|] eqn:Hm1; cbn;
           [| destruct (vars !! "test_pivot_df") as [m2|] eqn:Hm2; cbn ] |]);
    repeat match goal with
           | H : is_none _ = true |- _ => apply is_none_true in H; subst
           end;
    split_and!; try done;
    try (by intros; repeat constructor);
    try (by intros []);
    try (by intros ? [= <-] Hn; cbn in Hn; congruence);
    try (intros ? [= <-];
         first [ by left
               | right; by left
               | right; right; by exists FileFull | right; right; by exists FileTest
               | right; right; by exists MainFull | right; right; by exists MainTest ]).
Qed.

Lemma load_data_by_presence_witness :
  result_of (run (load_data corrupt_snapshot_env) ∅)
    = Raised (Exn UnpicklingError "pickle data was truncated") ∧
  Forall (λ ev, probed ev ≠ Some FileTest)
         (trace_of (run (load_data corrupt_snapshot_env) ∅)) ∧
  Forall (λ ev, probed ev ≠ Some MainFull ∧ probed ev ≠ Some MainTest)
         (trace_of (run (load_data snapshot_env) ∅)) ∧
  Forall (λ ev, probed ev ≠ Some FileFull ∧ probed ev ≠ Some FileTest ∧
                is_cache_store ev = false)
         (trace_of (run (load_data (with_cache (Some (Val PyNone)) snapshot_env)) ∅)).
Proof.
  destruct (load_data_by_presence corrupt_snapshot_env ∅) as (H1 & _ & _ & _ & H5 & _).
  destruct (load_data_by_presence snapshot_env ∅) as (_ & _ & _ & _ & _ & H6 & _).
  destruct (load_data_by_presence (with_cache (Some (Val PyNone)) snapshot_env) ∅)
    as (_ & _ & _ & _ & _ & _ & H7 & _).
  split_and!.
  - rewrite H1. reflexivity.
  - apply H5. vm_compute. eauto.
  - apply (H6 (Frame sample_rows)); reflexivity.
  - apply H7. vm_compute. eauto.
Defined.

(** ** What the two halves of the script can emit *)

Ltac emits_only_auto :=
  repeat first
    [ emits_only_step
    | match goal with
      | |- emits_only _ (match ?x with _ => _ end) => destruct x
      | |- emits_only _ (if ?b then _ else _) => destruct b
      | |- emits_only _ (let _ := _ in _) => cbv zeta
      end ].

Lemma load_data_emits_no_widget (w : env) :
  emits_only (λ ev, is_workflow_event ev = false ∧ ev ≠ data_missing_error) (load_data w).
Proof.
  unfold load_data, load_prediction_data, load_prediction_data_body, read_pickle, import_main.
  emits_only_auto.
Qed.

Lemma import_functions_emits_no_widget (w : env) :
  emits_only (λ ev, is_workflow_event ev = false ∧ ev ≠ data_missing_error)
             (import_functions w).
Proof.
  unfold import_functions, load_functions, import_main, set_item.
  emits_only_auto.
Qed.

(** Lines 1-101 show no widget of the workflow and call no collaborator. *)
Lemma prologue_emits_no_widget (w : env) :
  emits_only (λ ev, is_workflow_event ev = false) (prologue w).
Proof.
  unfold prologue, page_header, init_session_state, set_if_absent, require_prediction_df,
    load_data, load_prediction_data, load_prediction_data_body, read_pickle, import_main,
    import_functions, load_functions, set_item.
  emits_only_auto.
Qed.

Lemma first_present_is_None (w : env) :
  first_present w = Ok (Val PyNone) ↔
  file_stage w = Ok (Val PyNone) ∧ in_memory_table w = Val PyNone.
Proof.
  unfold first_present.
  destruct (file_stage w) as [o|e|]; [| by split; [| intros []] ..].
  destruct (is_none o) eqn:Hnone.
  - apply is_none_true in Hnone. subst o. split.
    + by intros [= ->].
    + by intros [_ ->].
  - split.
    + intros [= ->]. discriminate Hnone.
    + intros [[= ->] _]. discriminate Hnone.
Qed.

Lemma first_present_absent (w : env) :
  data_cache w = None → all_sources_absent w → first_present w = Ok (Val PyNone).
Proof.
  intros Hcache (Hf & Ht & Hmf & Hmt).
  unfold first_present, file_stage, chosen_file, in_memory_table.
  by rewrite Hcache, Hf, Ht, Hmf, Hmt.
Qed.

Lemma first_present_None (w : env) :
  data_cache w = None → sources_hold_data w →
  first_present w = Ok (Val PyNone) → all_sources_absent w.
Proof.
  intros Hcache Hdata.
  pose proof (Hdata FileFull) as Hff. pose proof (Hdata FileTest) as Hft.
  pose proof (Hdata MainFull) as Hmf. pose proof (Hdata MainTest) as Hmt.
  unfold first_present, file_stage, chosen_file, in_memory_table, all_sources_absent in *.
  rewrite Hcache.
  cbn in *. unfold file_content in *.
  destruct (files w !! "full_pivot_df.pkl") as [[e1|o1]|];
    [| | destruct (files w !! "test_pivot_df.pkl") as [[e2|o2]|] ];
    repeat match goal with
           | o : pyobj |- context [is_none ?o'] =>
               constr_eq o o'; destruct (is_none o) eqn:?
           end;
    repeat match goal with
           | H : is_none _ = true |- _ => apply is_none_true in H; subst
           end;
    try done;
    try (by intros [= ->]);
    destruct (attr_content w "full_pivot_df") as [m1|];
    [ by intros [= ->] | ];
    destruct (attr_content w "test_pivot_df") as [m2|]; cbn;
    try (by intros [= ->]); done.
Qed.

Lemma not_elem_of_Forall {A} (x : A) (l : list A) :
  Forall (λ y, y ≠ x) l → x ∉ l.
Proof. rewrite Forall_forall. intros H Hx. by apply (H x). Qed.

Lemma dashboard_emits_no_data_error w ui fns df :
  emits_only (λ ev, ev ≠ data_missing_error) (dashboard w ui fns df).
Proof.
  unfold dashboard, sidebar, main_pane, footer, query_and_show, show_anomalies,
    generate_explanation, show_explanation, show_anomaly_details, gather_aux,
    import_main, set_item.
  emits_only_auto.
Qed.

(** Whether the two functions are found does not depend on the session. *)
Lemma functions_found_from_one (w : env) (s s' : gmap string pyobj) (t : list event)
    (fns : get_anomalies_fn * explain_fn) :
  run (import_functions w) s = (t, s', Ok fns) → functions_found w.
Proof.
  unfold functions_found, import_functions, load_functions, import_main, set_item. cbn.
  destruct (anomaly_functions w) as [fns0|e]; cbn; [by eauto|].
  destruct (is_ImportError e); cbn; [| done].
  destruct (code_new w) as [[[g|] [x|]]|e2]; cbn; try done; try by eauto.
  destruct (main_module w) as [[vars [g|] [x|]]|]; cbn; try done; by eauto.
Qed.

(** ** No data, no dashboard (lines 87-101) *)

(** Closes a goal [x ∈ t → _] when [x] is none of the events of [t]. *)
Ltac absurd_membership :=
  let Hin := fresh "Hin" in
  intros Hin; exfalso; revert Hin;
  rewrite ?elem_of_cons, ?elem_of_app, ?elem_of_nil;
  intuition (discriminate || eauto).

(** C2, as worded, fails in both directions.  The error is shown although
    a source is there: when the first snapshot holds a pickled [None]
    (the second one is never opened), and when a run that found nothing
    has left [None] in the server's cache and the snapshot was saved
    afterwards.  And with every source absent the error is not shown
    when the two functions are missing as well (the script stops one
    step earlier, on the functions), nor when importing
    [anomaly_functions] fails otherwise (the script raises, and neither
    shows an error nor stops). *)
Lemma unavailability_counterexample :
  ¬ unavailability_as_claimed none_snapshot_env ∧
  ¬ unavailability_as_claimed cached_none_env ∧
  ¬ unavailability_as_claimed no_functions_env ∧
  ¬ unavailability_as_claimed broken_module_env.
Proof.
  split_and!; intros H; destruct (H idle ∅) as [Honly Hwhen].
  - destruct Honly as [Hfull _]; [| discriminate Hfull].
    apply list_elem_of_In. vm_compute. tauto.
  - destruct Honly as [Hfull _]; [| discriminate Hfull].
    apply list_elem_of_In. vm_compute. tauto.
  - destruct Hwhen as [Hin _]; [by repeat split|].
    apply list_elem_of_In in Hin. vm_compute in Hin.
    repeat destruct Hin as [Hin|Hin]; try discriminate Hin. exact Hin.
  - destruct Hwhen as [_ Hstop]; [by repeat split|].
    vm_compute in Hstop. discriminate Hstop.
Qed.

(** C2, amended: the script reports that the prediction data is
    unavailable exactly when the two functions were found and the value
    it loaded is [None], that is when the file stage (the value the
    server has cached for the loader, or else the first snapshot file
    that exists) gave [None] and [__main__] offers no table.  It then
    shows the error with its instructions as the last two things of the
    run and stops.  Whenever the loaded value is [None] the run never
    reaches the dashboard: no date selector, no anomaly query, no
    selector and no explanation request appear, and the run does not
    complete.  On a server without a cached value, and with data (not
    [None]) under whatever source name is there, the loaded value is
    [None] exactly when both pickle files and both tables of [__main__]
    are absent. *)
Theorem data_unavailable_is_terminal (w : env) (ui : widgets) (s : gmap string pyobj) :
  let r := run (app w ui) s in
  let loaded := result_of (run (load_data w) s) in
  (data_missing_error ∈ trace_of r ↔ loaded = Ok (Val PyNone) ∧ functions_found w) ∧
  (data_missing_error ∈ trace_of r →
     result_of r = Stopped ∧
     ∃ t, trace_of r = t ++ [data_missing_error; StInfo [Lit data_missing_help]]) ∧
  (loaded = Ok (Val PyNone) →
     Forall (λ ev, is_workflow_event ev = false) (trace_of r) ∧
     result_of r ≠ Ok tt) ∧
  (loaded = Ok (Val PyNone) ↔
     file_stage w = Ok (Val PyNone) ∧ in_memory_table w = Val PyNone) ∧
  (data_cache w = None → sources_hold_data w →
     (loaded = Ok (Val PyNone) ↔ all_sources_absent w)).
Proof.
  cbv zeta. rewrite (load_data_result w s).
  assert (let r := run (app w ui) s in
          (data_missing_error ∈ trace_of r ↔
             first_present w = Ok (Val PyNone) ∧ functions_found w) ∧
          (data_missing_error ∈ trace_of r →
             result_of r = Stopped ∧
             ∃ t, trace_of r = t ++ [data_missing_error; StInfo [Lit data_missing_help]]) ∧
          (first_present w = Ok (Val PyNone) →
             Forall (λ ev, is_workflow_event ev = false) (trace_of r) ∧
             result_of r ≠ Ok tt)) as (Hiff & Hstop & Hnever).
  { pose proof (load_data_result w) as Hres.
    pose proof (load_data_emits_no_widget w) as Hld.
    pose proof (import_functions_emits_no_widget w) as Hif.
    pose proof (functions_found_from_one w) as Hone.
    pose proof (dashboard_emits_no_data_error w ui) as Hd.
    unfold functions_found in *.
    unfold app, prologue.
    generalize dependent (load_data w). intros LD Hres Hld.
    generalize dependent (import_functions w). intros IF Hif Hone.
    generalize dependent (dashboard w ui). intros D Hd.
    unfold page_header, init_session_state, set_if_absent, require_prediction_df.
    cbn.
    set (s0 := match _ !! "functions_loaded" with Some _ => _ | None => _ end).
    specialize (Hres s0). specialize (Hld s0).
    unfold emits_only, trace_of, result_of in *.
    destruct (run LD s0) as [[t1 s1] r1]. cbn in *. subst r1.
    specialize (Hif s1).
    assert (data_missing_error ∉ t1) as Hn1.
    { apply not_elem_of_Forall. eapply Forall_impl; [exact Hld | by intros ? []]. }
    assert (Forall (λ ev, is_workflow_event ev = false) t1) as Hw1.
    { eapply Forall_impl; [exact Hld | by intros ? []]. }
    destruct (first_present w) as [a|e|] eqn:Hfp; cbn.
    2, 3: split_and!; [split; [absurd_membership | by intros [[=] _]]
                      | absurd_membership | by intros [=]].
    destruct (run IF s1) as [[t2 s2] [fns|e|]] eqn:HIF; cbn in *.
    all: assert (data_missing_error ∉ t2) as Hn2
      by (apply not_elem_of_Forall; eapply Forall_impl; [exact Hif | by intros ? []]).
    all: assert (Forall (λ ev, is_workflow_event ev = false) t2) as Hw2
      by (eapply Forall_impl; [exact Hif | by intros ? []]).
    - destruct (is_none a) eqn:Hnone; cbn.
      + apply is_none_true in Hnone. subst a. split_and!.
        * split.
          -- intros _. split; [done|]. by eapply Hone.
          -- intros _. rewrite !elem_of_cons, !elem_of_app, !elem_of_cons. auto 10.
        * intros _. split; [done|].
          eexists (_ :: _ :: _ :: t1 ++ t2). cbn. by rewrite <- app_assoc.
        * intros _. split; [| done].
          repeat (apply Forall_cons; split; [done|]).
          rewrite !Forall_app. split_and!; try done. by repeat constructor.
      + specialize (Hd fns a s2). apply not_elem_of_Forall in Hd.
        destruct (run (D fns a) s2) as [[t3 s3] r3]; cbn in *.
        split_and!.
        * split; [absurd_membership |]. intros [[= ->] _]. discriminate Hnone.
        * absurd_membership.
        * intros [= ->]. discriminate Hnone.
    - split_and!.
      + split; [absurd_membership |].
        intros [_ Hff]. destruct (Hff s1) as (t & s' & fns' & Heq). by rewrite HIF in Heq.
      + absurd_membership.
      + intros _. split; [| done].
        repeat (apply Forall_cons; split; [done|]).
        rewrite ?app_nil_r, !Forall_app. by split_and!.
    - split_and!.
      + split; [absurd_membership |].
        intros [_ Hff]. destruct (Hff s1) as (t & s' & fns' & Heq). by rewrite HIF in Heq.
      + absurd_membership.
      + intros _. split; [| done].
        repeat (apply Forall_cons; split; [done|]).
        rewrite ?app_nil_r, !Forall_app. by split_and!. }
  split_and!; try done.
  - apply first_present_is_None.
  - intros Hcache Hdata. split.
    + by apply first_present_None.
    + by apply first_present_absent.
Qed.

Lemma data_unavailable_is_terminal_witness :
  all_sources_absent bare_env ∧
  result_of (run (app bare_env find_on_june_1) ∅) = Stopped ∧
  Forall (λ ev, is_workflow_event ev = false)
         (trace_of (run (app bare_env find_on_june_1) ∅)) ∧
  result_of (run (app cached_none_env find_on_june_1) ∅) = Stopped.
Proof.
  destruct (data_unavailable_is_terminal bare_env find_on_june_1 ∅)
    as (Hiff & Hstop & Hnever & _ & Habsent).
  destruct (data_unavailable_is_terminal cached_none_env find_on_june_1 ∅)
    as (Hiff' & Hstop' & _).
  assert (data_missing_error ∈ trace_of (run (app bare_env find_on_june_1) ∅)) as Hin.
  { apply list_elem_of_In. vm_compute. tauto. }
  assert (data_missing_error ∈ trace_of (run (app cached_none_env find_on_june_1) ∅))
    as Hin'.
  { apply Hiff'. split; [reflexivity|]. intros s. by eexists _, _, _. }
  split_and!.
  - apply Habsent; [reflexivity | intros []; vm_compute; discriminate |].
    by apply Hiff.
  - by apply Hstop.
  - apply Hnever. by apply Hiff.
  - by apply Hstop'.
Defined.

(** ** The sidebar and the main pane *)

Lemma run_sidebar (ui : widgets) (s : gmap string pyobj) :
  run (sidebar ui) s = (sidebar_events, after_sidebar ui s, Ok tt).
Proof. unfold sidebar, after_sidebar. cbn. by destruct (find_anomalies_clicked ui). Qed.

Lemma confirm_date_lookup (date_str : string) (s : gmap string pyobj) :
  confirm_date date_str s !! "selected_date" = Some (Val (PyStr date_str)) ∧
  confirm_date date_str s !! "anomalies" = Some (Val PyNone) ∧
  confirm_date date_str s !! "selected_anomaly" = Some (Val PyNone) ∧
  confirm_date date_str s !! "selected_index" = Some (Val PyNone).
Proof. unfold confirm_date. split_and!; by simplify_map_eq. Qed.

Lemma run_dashboard (w : env) (ui : widgets) (fns : get_anomalies_fn * explain_fn)
    (prediction_df : pyobj) (s : gmap string pyobj) :
  run (dashboard w ui fns prediction_df) s =
    (let '(t, s2, r) :=
       run (main_pane w ui fns prediction_df ;;; footer) (after_sidebar ui s) in
     (sidebar_events ++ t, s2, r)).
Proof.
  unfold dashboard. rewrite (run_bind_ok _ _ _ _ _ _ (run_sidebar ui s)).
  unfold trace_of, state_of, result_of.
  by destruct (run _ (after_sidebar ui s)) as [[t s2] r].
Qed.

Lemma run_main_pane_selected (w : env) (ui : widgets) (fns : get_anomalies_fn * explain_fn)
    (prediction_df date_str : pyobj) (s : gmap string pyobj) :
  s !! "selected_date" = Some date_str →
  truthy_obj date_str = Returns true →
  run (main_pane w ui fns prediction_df) s
    = run (query_and_show w ui fns date_str prediction_df) s.
Proof.
  intros Hdate Htruthy. unfold main_pane.
  generalize (query_and_show w ui fns). intros Q. cbn.
  unfold date_is_selected. rewrite Hdate, Htruthy. cbn.
  by destruct (run (Q date_str prediction_df) s) as [[t s2] r].
Qed.

(** ** Confirming a date (lines 117-121) *)

(** C3: whatever the session held before (a chosen anomaly, a stored
    explanation, or nothing), pressing Find Anomalies stores the new date
    and sets the anomaly list, the selected anomaly with its explanation,
    and the selected index to [None]; the sidebar does this and nothing
    else, and the query for the new date then starts from that state. *)
Theorem confirm_date_resets_selection (w : env) (d : date) (choice : nat) (generate : bool)
    (fns : get_anomalies_fn * explain_fn) (prediction_df : pyobj) (s : gmap string pyobj) :
  let ui := Widgets d true choice generate in
  let date_str := strftime_Ymd d in
  let s' := confirm_date date_str s in
  s' !! "selected_date" = Some (Val (PyStr date_str)) ∧
  s' !! "anomalies" = Some (Val PyNone) ∧
  s' !! "selected_anomaly" = Some (Val PyNone) ∧
  s' !! "selected_index" = Some (Val PyNone) ∧
  run (sidebar ui) s = (sidebar_events, s', Ok tt) ∧
  run (dashboard w ui fns prediction_df) s =
    (let '(t, s2, r) :=
       run (query_and_show w ui fns (Val (PyStr date_str)) prediction_df ;;; footer) s' in
     (sidebar_events ++ t, s2, r)).
Proof.
  intros ui date_str s'.
  destruct (confirm_date_lookup date_str s) as (H1 & H2 & H3 & H4).
  split_and!; try done.
  rewrite run_dashboard. change (after_sidebar ui s) with s'.
  pose proof (run_main_pane_selected w ui fns prediction_df _ s' H1 eq_refl) as Hmain.
  generalize dependent (query_and_show w ui fns). intros Q Hmain.
  generalize dependent (main_pane w ui fns prediction_df). intros M Hmain.
  cbn. by rewrite Hmain.
Qed.

(** ** A date without anomalies (lines 128-132) *)

(** C4: when the query for the confirmed date finds nothing, the run is
    an ordinary one.  The pane shows the warning that no anomalies were
    detected on that date and the hint to try another date, nothing is
    reported as an error (in particular not the missing-data error), the
    script neither raises nor stops but runs on to its footer, and the
    session is left as the sidebar left it, with the date confirmed. *)
Theorem no_anomalies_is_not_an_error (w : env) (ui : widgets)
    (fns : get_anomalies_fn * explain_fn) (prediction_df date_str : pyobj)
    (s : gmap string pyobj) :
  after_sidebar ui s !! "selected_date" = Some date_str →
  truthy_obj date_str = Returns true →
  finds_nothing (fns.1 date_str prediction_df) →
  let r := run (dashboard w ui fns prediction_df) s in
  r = (sidebar_events
         ++ CallGetAnomalies date_str prediction_df :: no_anomalies_events date_str
         ++ footer_events,
       after_sidebar ui s, Ok tt) ∧
  Forall (λ ev, is_error_event ev = false) (trace_of r) ∧
  data_missing_error ∉ trace_of r.
Proof.
  intros Hdate Htruthy Hnothing r.
  assert (r = (sidebar_events
         ++ CallGetAnomalies date_str prediction_df :: no_anomalies_events date_str
         ++ footer_events,
       after_sidebar ui s, Ok tt)) as ->.
  { subst r. rewrite run_dashboard.
    pose proof (run_main_pane_selected w ui fns prediction_df _ _ Hdate Htruthy) as Hmain.
    generalize dependent (main_pane w ui fns prediction_df). intros M Hmain.
    cbn. rewrite Hmain. unfold query_and_show. cbn.
    by destruct Hnothing as [-> | ->]. }
  split_and!; [done | by repeat constructor |].
  apply not_elem_of_Forall.
  unfold trace_of, sidebar_events, no_anomalies_events, footer_events. cbn.
  repeat (constructor; [done |]). constructor.
Qed.

Lemma no_anomalies_is_not_an_error_witness :
  run (dashboard (sample_env ∅ None) find_on_june_2
         (sample_get_anomalies, sample_explain) (Frame sample_rows)) ∅
  = (sidebar_events
       ++ CallGetAnomalies (Val (PyStr "2011-06-02")) (Frame sample_rows)
            :: no_anomalies_events (Val (PyStr "2011-06-02"))
       ++ footer_events,
     confirm_date "2011-06-02" ∅, Ok tt).
Proof.
  apply (no_anomalies_is_not_an_error (sample_env ∅ None) find_on_june_2
           (sample_get_anomalies, sample_explain) (Frame sample_rows)
           (Val (PyStr "2011-06-02")) ∅).
  - reflexivity.
  - reflexivity.
  - right. reflexivity.
Defined.

(** ** Requesting an explanation (lines 169-251) *)

(** The handler up to the generator's answer: the spinner, the import of
    [__main__], the call. *)
Lemma run_generate_explanation (w : env) (explain : explain_fn)
    (date_str : pyobj) (index : nat) (prediction_df : pyobj) (s : gmap string pyobj) :
  run (generate_explanation w explain date_str index prediction_df) s =
    (let '(t, s', r) :=
       run (try_except any_Exception
              (result <- lift (explain date_str index prediction_df (aux_of w)) ;;
               ok <- lift (explanation_ok result) ;;
               if ok : bool then show_explanation w result
               else emit generation_failed_error)
              (λ e,
                emit (StError [Lit "❌ Error generating explanation: "; FmtExn e]) ;;;
                emit (StExpander [Lit "Error Details"]) ;;;
                emit (StException e))) s in
     (request_events w date_str index prediction_df ++ t, s', r)).
Proof.
  unfold generate_explanation, request_events, gather_aux, import_main, aux_of.
  generalize (show_explanation w). intros SE.
  cbn. destruct (main_module w) as [ns|]; cbn.
  all: match goal with
       | |- context [lift ?o] => destruct o as [result|e]
       end; cbn; [|done].
  all: destruct (explanation_ok result) as [[|]|e]; cbn; try done.
  all: by destruct (run (SE result) s) as [[t s'] [[]|e|]].
Qed.


Lemma explanation_not_ok (result : pyval) :
  generation_failed (Returns result) → explanation_ok result = Returns false.
Proof.
  unfold explanation_ok.
  intros [Hfalsy | [(d & -> & Hd) | (d & v & -> & Hd & Hv)]].
  - by rewrite Hfalsy.
  - destruct (truthy (PyDict d)); [|done]. cbn. rewrite Hd.
    rewrite bool_decide_eq_false_2; [done | by intros []].
  - destruct (truthy (PyDict d)); [|done]. cbn. rewrite Hd.
    rewrite bool_decide_eq_true_2 by eauto. cbn. by rewrite Hv.
Qed.

(** C5: when the explanation generator fails (it raises, or returns
    something falsy, or a dict without ['explanation'], or one whose
    explanation is empty), the handler stores nothing and shows no part
    of a report: after the request it only displays an error (the fixed
    "failed, please try again" message, or for an exception the message
    with the exception's text and its details), the whole session, and so
    the stored explanation, the anomaly list and the selected index, is
    left as it was, and the script runs on normally, so the button can be
    pressed again. *)
Theorem failed_generation_stores_nothing (w : env) (explain : explain_fn)
    (date_str : pyobj) (index : nat) (prediction_df : pyobj) (s : gmap string pyobj) :
  generation_failed (explain date_str index prediction_df (aux_of w)) →
  let r := run (generate_explanation w explain date_str index prediction_df) s in
  r = (request_events w date_str index prediction_df
         ++ failure_events (explain date_str index prediction_df (aux_of w)),
       s, Ok tt) ∧
  state_of r !! "selected_anomaly" = s !! "selected_anomaly" ∧
  Forall (λ ev, shows_report ev = false) (trace_of r) ∧
  Exists (λ ev, is_error_event ev = true) (trace_of r).
Proof.
  intros Hfail r.
  assert (r = (request_events w date_str index prediction_df
         ++ failure_events (explain date_str index prediction_df (aux_of w)),
       s, Ok tt)) as ->.
  { subst r. rewrite run_generate_explanation.
    generalize (show_explanation w). intros SE. cbn.
    destruct (explain date_str index prediction_df (aux_of w)) as [result|e]; cbn; [|done].
    by rewrite (explanation_not_ok _ Hfail). }
  split_and!; [done | done | |];
    unfold trace_of, request_events; cbn;
    destruct (explain date_str index prediction_df (aux_of w)); cbn.
  - by repeat constructor.
  - by repeat constructor.
  - do 3 apply Exists_cons_tl. by apply Exists_cons_hd.
  - do 3 apply Exists_cons_tl. by apply Exists_cons_hd.
Qed.

Lemma failed_generation_stores_nothing_witness :
  run (generate_explanation (sample_env ∅ None) mute_explain
         (Val (PyStr "2011-06-01")) 1 (Frame sample_rows)) explained_session
  = ([ spinner_event; Import "__main__";
       CallExplain (Val (PyStr "2011-06-01")) 1 (Frame sample_rows) no_aux;
       generation_failed_error ],
     explained_session, Ok tt) ∧
  run (generate_explanation (sample_env ∅ None) crashing_explain
         (Val (PyStr "2011-06-01")) 1 (Frame sample_rows)) explained_session
  = ([ spinner_event; Import "__main__";
       CallExplain (Val (PyStr "2011-06-01")) 1 (Frame sample_rows) no_aux ]
       ++ generation_raised_events (Exn (OtherError "RuntimeError") "CUDA out of memory"),
     explained_session, Ok tt).
Proof.
  split.
  - apply (failed_generation_stores_nothing (sample_env ∅ None) mute_explain).
    right; right. eexists _, _. split_and!; reflexivity.
  - apply (failed_generation_stores_nothing (sample_env ∅ None) crashing_explain).
    exact I.
Defined.

(** C8: the handler asks [__main__] for [shap_values], [X], [explainer]
    and [scaler], and whatever it cannot get it passes as [None]: an
    attribute that is not defined becomes [None], and if [__main__] cannot
    be imported all four are [None].  In every case the generator is
    called, right after the attempt, with the context gathered that way;
    nothing is shown as an error before the call. *)
Theorem missing_aux_context_is_passed_as_None (w : env) (explain : explain_fn)
    (date_str : pyobj) (index : nat) (prediction_df : pyobj) (s : gmap string pyobj) :
  let r := run (generate_explanation w explain date_str index prediction_df) s in
  (∃ rest, trace_of r =
             [ spinner_event; Import "__main__";
               CallExplain date_str index prediction_df (aux_of w) ] ++ rest) ∧
  (attr_content w "shap_values" = None → shap_values (aux_of w) = Val PyNone) ∧
  (attr_content w "X" = None → X (aux_of w) = Val PyNone) ∧
  (attr_content w "explainer" = None → explainer (aux_of w) = Val PyNone) ∧
  (attr_content w "scaler" = None → scaler (aux_of w) = Val PyNone) ∧
  (main_module w = None → aux_of w = no_aux).
Proof.
  intros r. split.
  - subst r. rewrite run_generate_explanation.
    destruct (run (try_except _ _ _) s) as [[t s'] r']. by exists t.
  - unfold attr_content, aux_of, getattr_or_None.
    destruct (main_module w) as [ns|]; cbn; [| done].
    split_and!; try done; by intros ->.
Qed.

Lemma missing_aux_context_is_passed_as_None_witness :
  shap_values (aux_of (sample_env ∅ (Some (MainNs {[ "X" := Opaque "X" ]} None None))))
    = Val PyNone ∧
  aux_of (sample_env ∅ None) = no_aux.
Proof.
  split.
  - apply (missing_aux_context_is_passed_as_None
             (sample_env ∅ (Some (MainNs {[ "X" := Opaque "X" ]} None None)))
             sample_explain (Val PyNone) 0 (Val PyNone) ∅).
    reflexivity.
  - apply (missing_aux_context_is_passed_as_None (sample_env ∅ None)
             sample_explain (Val PyNone) 0 (Val PyNone) ∅).
    reflexivity.
Defined.

(** ** The selector and the index of the request (lines 158-195) *)

Lemma selectbox_in_range (n choice : nat) :
  0 < n → selectbox (seq 0 n) choice < n.
Proof.
  intros Hn. unfold selectbox. case_bool_decide as Hin.
  - apply elem_of_seq in Hin. lia.
  - destruct n; [lia | cbn; lia].
Qed.

Lemma selectbox_offered (n choice : nat) :
  choice < n → selectbox (seq 0 n) choice = choice.
Proof.
  intros Hn. unfold selectbox. rewrite bool_decide_eq_true_2; [done|].
  apply elem_of_seq. lia.
Qed.

Lemma selectbox_not_offered (n choice : nat) :
  n ≤ choice → selectbox (seq 0 n) choice = hd 0 (seq 0 n).
Proof.
  intros Hn. unfold selectbox. rewrite bool_decide_eq_false_2; [done|].
  rewrite elem_of_seq. lia.
Qed.






(** ** Missing fields (lines 143-153 and 238-244) *)

Lemma with_defaults_lookup (anomaly : gmap string pyval) :
  with_defaults anomaly !! "Timestamp" = anomaly !! "Timestamp" ∧
  with_defaults anomaly !! "Activity"
    = Some (default (PyStr "Unknown") (anomaly !! "Activity")) ∧
  with_defaults anomaly !! "Prediction_Confidence"
    = Some (default (PyInt 0) (anomaly !! "Prediction_Confidence")).
Proof.
  unfold with_defaults.
  destruct (anomaly !! "Activity") as [a|] eqn:Ha; cbn;
    [ destruct (anomaly !! "Prediction_Confidence") as [c|] eqn:Hc
    | rewrite lookup_insert_ne by done;
      destruct (anomaly !! "Prediction_Confidence") as [c|] eqn:Hc ];
    cbn; split_and!; by simplify_map_eq.
Qed.

Lemma summary_entry_with_defaults (w : env) (idx : nat) (anomaly : gmap string pyval) :
  summary_entry w idx anomaly = summary_entry w idx (with_defaults anomaly).
Proof.
  destruct (with_defaults_lookup anomaly) as (Ht & Ha & Hc).
  unfold summary_entry, py_getitem. by rewrite Ht, Ha, Hc.
Qed.

Lemma summary_from_with_defaults (w : env) (rows : list (gmap string pyval)) (idx : nat) :
  summary_from w idx rows = summary_from w idx (with_defaults <$> rows).
Proof.
  revert idx. induction rows as [|row rows IH]; intros idx; [done|].
  cbn. by rewrite <- summary_entry_with_defaults, <- IH.
Qed.

Lemma show_anomaly_details_with_defaults (w : env) (result anomaly : gmap string pyval)
    (s : gmap string pyobj) :
  result !! "anomaly" = Some (PyDict anomaly) →
  run (show_anomaly_details w (PyDict result)) s
    = run (show_anomaly_details w
             (PyDict (<["anomaly" := PyDict (with_defaults anomaly)]> result))) s.
Proof.
  intros Hres. destruct (with_defaults_lookup anomaly) as (Ht & Ha & Hc).
  unfold show_anomaly_details. cbn -[with_defaults].
  rewrite lookup_insert_eq, Hres.
  rewrite !bool_decide_eq_true_2 by eauto. cbn -[with_defaults].
  by rewrite Ht, Ha, Hc.
Qed.

Lemma summary_entry_returns (w : env) (idx : nat) (anomaly : gmap string pyval)
    (row : summary_row) :
  summary_entry w idx anomaly = Returns row →
  Index row = idx ∧
  ∃ timestamp,
    anomaly !! "Timestamp" = Some timestamp ∧
    time_text w timestamp = Returns (Time row) ∧
    Activity row = default (PyStr "Unknown") (anomaly !! "Activity") ∧
    Confidence row = [FmtPercent2 (default (PyInt 0) (anomaly !! "Prediction_Confidence"))].
Proof.
  unfold summary_entry, py_getitem.
  destruct (anomaly !! "Timestamp") as [timestamp|]; cbn; [|done].
  destruct (time_text w timestamp) as [time|e] eqn:Htime; cbn; [|done].
  destruct (default (PyInt 0) (anomaly !! "Prediction_Confidence")); cbn; try done.
  all: intros [= <-]; cbn; split; [done|]; by exists timestamp.
Qed.

Lemma summary_from_shape (w : env) (rows : list (gmap string pyval)) :
  ∀ idx summary,
    summary_from w idx rows = Returns summary →
    length summary = length rows ∧
    ∀ i row, summary !! i = Some row →
             ∃ anomaly, rows !! i = Some anomaly ∧
                        summary_entry w (idx + i) anomaly = Returns row.
Proof.
  induction rows as [|anomaly rows IH]; intros idx summary; cbn.
  - intros [= <-]. split; [done|]. by intros i row.
  - destruct (summary_entry w idx anomaly) as [row0|e] eqn:Hrow; cbn; [|done].
    destruct (summary_from w (S idx) rows) as [rest|e] eqn:Hrest; cbn; [|done].
    intros [= <-]. destruct (IH _ _ Hrest) as [Hlen Hrows]. split; [cbn; lia|].
    intros [|i] row; cbn.
    + intros [= <-]. exists anomaly. by rewrite Nat.add_0_r.
    + intros Hi. destruct (Hrows i row Hi) as (a & Ha & Hentry).
      exists a. split; [done|]. by replace (idx + S i) with (S idx + i) by lia.
Qed.

Lemma summary_entry_bare (w : env) (idx : nat) (record : gmap string pyval)
    (time : string) :
  bare_at w record time → summary_entry w idx record = Returns (bare_row idx time).
Proof.
  intros (Hact & Hconf & timestamp & Hts & Htime).
  unfold summary_entry, py_getitem. rewrite Hts, Hact, Hconf. cbn.
  by rewrite Htime.
Qed.

Lemma summary_from_bare (w : env) (rows : list (gmap string pyval)) (times : list string) :
  Forall2 (bare_at w) rows times →
  ∀ idx, summary_from w idx rows = Returns (imap (λ i, bare_row (idx + i)) times).
Proof.
  induction 1 as [|record time rows times Hbare _ IH]; intros idx; [done|].
  cbn. rewrite (summary_entry_bare _ _ _ _ Hbare). cbn. rewrite IH. cbn.
  rewrite Nat.add_0_r. do 2 f_equal.
  apply imap_ext. intros i t _. cbn. f_equal. lia.
Qed.

(** C7, as worded, fails for a field that is there but empty.  A row of
    a DataFrame has every column of the table, and a record that lacks
    its activity or its confidence has [NaN] (or [None]) in that cell:
    [.get] finds the key and the sentinel is not used.  An empty
    activity is shown as [nan] and an empty confidence as [nan%]; with
    [None] in the confidence cell the format fails and the table is not
    rendered. *)
Lemma degrades_to_defaults_counterexample :
  ¬ degrades_to_defaults (sample_env ∅ None) nan_record ∧
  ¬ degrades_to_defaults (sample_env ∅ None) none_record.
Proof.
  split; intros (row & Hrow & Hact & Hconf).
  - vm_compute in Hrow. injection Hrow as <-.
    specialize (Hact eq_refl). discriminate Hact.
  - vm_compute in Hrow. discriminate Hrow.
Qed.

(** C7, amended: the sentinels stand in for a field that is absent from
    the record, ['Unknown'] for an absent ['Activity'] and 0 for an
    absent ['Prediction_Confidence'], in the summary table and in the
    Anomaly Details block alike.  The summary table has one row per
    record, in order, each with the record's own activity and confidence
    or the sentinel where the record has no such field; records that
    have neither field (and a timestamp that can be shown) give a table
    of "Unknown" and the percentage of 0, without failing.  A record is
    displayed as the record with the sentinels written in where a field
    is absent.  A field that is present is rendered from the value it
    holds, an empty cell included: the sentinel is not used for it. *)
Theorem missing_fields_degrade_to_defaults (w : env) (idx : nat)
    (anomaly result : gmap string pyval) (rows : list (gmap string pyval))
    (s : gmap string pyobj) :
  (* the summary table and its rows *)
  (∀ summary,
     anomaly_summary w rows = Returns summary →
     length summary = length rows ∧
     ∀ i row, summary !! i = Some row →
       ∃ record, rows !! i = Some record ∧ Index row = i ∧
                 Activity row = default (PyStr "Unknown") (record !! "Activity") ∧
                 Confidence row
                   = [FmtPercent2 (default (PyInt 0) (record !! "Prediction_Confidence"))]) ∧
  (∀ times,
     Forall2 (bare_at w) rows times →
     anomaly_summary w rows = Returns (imap bare_row times)) ∧
  (* one record of the table *)
  summary_entry w idx anomaly = summary_entry w idx (with_defaults anomaly) ∧
  anomaly_summary w rows = anomaly_summary w (with_defaults <$> rows) ∧
  (∀ time, bare_at w anomaly time →
           summary_entry w idx anomaly = Returns (bare_row idx time)) ∧
  (∀ timestamp time activity confidence,
     anomaly !! "Timestamp" = Some timestamp → time_text w timestamp = Returns time →
     anomaly !! "Activity" = Some activity →
     anomaly !! "Prediction_Confidence" = Some confidence →
     summary_entry w idx anomaly
       = outcome_bind (format_percent2 confidence) (λ conf,
           Returns (SummaryRow idx time activity conf))) ∧
  (* the Anomaly Details block *)
  (result !! "anomaly" = Some (PyDict anomaly) →
   run (show_anomaly_details w (PyDict result)) s
     = run (show_anomaly_details w
              (PyDict (<["anomaly" := PyDict (with_defaults anomaly)]> result))) s) ∧
  (∀ time,
     result !! "anomaly" = Some (PyDict anomaly) → bare_at w anomaly time →
     run (show_anomaly_details w (PyDict result)) s
       = (details_events time [FmtVal (PyStr "Unknown")] [FmtPercent2 (PyInt 0)],
          s, Ok tt)) ∧
  (* what the sentinels are *)
  (anomaly !! "Activity" = None →
   with_defaults anomaly !! "Activity" = Some (PyStr "Unknown")) ∧
  (anomaly !! "Prediction_Confidence" = None →
   with_defaults anomaly !! "Prediction_Confidence" = Some (PyInt 0)).
Proof.
  destruct (with_defaults_lookup anomaly) as (Ht & Ha & Hc).
  split_and!.
  - intros summary Hsum.
    destruct (summary_from_shape w rows 0 summary Hsum) as [Hlen Hrows].
    split; [done|]. intros i row Hi.
    destruct (Hrows i row Hi) as (record & Hrecord & Hentry).
    destruct (summary_entry_returns _ _ _ _ Hentry) as (Hidx & timestamp & ? & ? & ? & ?).
    by exists record.
  - intros times Hbare. unfold anomaly_summary.
    by rewrite (summary_from_bare w rows times Hbare 0).
  - apply summary_entry_with_defaults.
  - apply summary_from_with_defaults.
  - intros time. apply summary_entry_bare.
  - intros timestamp time activity confidence Hts Htime Hact Hconf.
    unfold summary_entry, py_getitem. rewrite Hts, Hact, Hconf. cbn.
    by rewrite Htime.
  - apply show_anomaly_details_with_defaults.
  - intros time Hres (Hact & Hconf & timestamp & Hts & Htime).
    unfold show_anomaly_details, time_text in *. cbn.
    rewrite Hres. rewrite !bool_decide_eq_true_2 by eauto. cbn.
    rewrite Hts, Hact, Hconf. cbn.
    destruct (pd_notna timestamp); cbn.
    + by rewrite Htime.
    + by injection Htime as <-.
  - intros Hact. by rewrite Ha, Hact.
  - intros Hconf. by rewrite Hc, Hconf.
Qed.

Lemma missing_fields_degrade_to_defaults_witness :
  anomaly_summary (sample_env ∅ None) [bare_record; bare_record]
    = Returns [bare_row 0 "2011-06-01 08:15:00"; bare_row 1 "2011-06-01 08:15:00"] ∧
  run (show_anomaly_details (sample_env ∅ None)
         (PyDict {[ "explanation" := PyStr "X"; "anomaly" := PyDict bare_record ]})) ∅
    = (details_events "2011-06-01 08:15:00" [FmtVal (PyStr "Unknown")]
                      [FmtPercent2 (PyInt 0)],
       ∅, Ok tt) ∧
  summary_entry (sample_env ∅ None) 0 nan_record
    = Returns (SummaryRow 0 "2011-06-01 08:15:00" (PyFloat FNaN)
                          [FmtPercent2 (PyFloat FNaN)]) ∧
  with_defaults bare_record !! "Activity" = Some (PyStr "Unknown") ∧
  with_defaults bare_record !! "Prediction_Confidence" = Some (PyInt 0).
Proof.
  assert (bare_at (sample_env ∅ None) bare_record "2011-06-01 08:15:00") as Hbare.
  { split_and!; [reflexivity | reflexivity |]. by eexists. }
  destruct (missing_fields_degrade_to_defaults (sample_env ∅ None) 0 bare_record
              {[ "explanation" := PyStr "X"; "anomaly" := PyDict bare_record ]}
              [bare_record; bare_record] ∅)
    as (_ & Htable & _ & _ & _ & _ & _ & Hdetails & Hact & Hconf).
  destruct (missing_fields_degrade_to_defaults (sample_env ∅ None) 0 nan_record
              ∅ [] ∅) as (_ & _ & _ & _ & _ & Hpresent & _).
  split_and!.
  - apply (Htable ["2011-06-01 08:15:00"; "2011-06-01 08:15:00"]).
    repeat (constructor; [exact Hbare|]). constructor.
  - apply (Hdetails "2011-06-01 08:15:00"); [reflexivity | exact Hbare].
  - apply (Hpresent (PyTime "2011-06-01 08:15:00") "2011-06-01 08:15:00"
                    (PyFloat FNaN) (PyFloat FNaN)); reflexivity.
  - apply Hact. reflexivity.
  - apply Hconf. reflexivity.
Defined.

(** ** What a run stores *)

Section state_lemmas.
Context {S E : Type}.

Lemma keeps_state_ret {A} (a : A) : keeps_state (S:=S) (E:=E) (ret a).
Proof. by intros s. Qed.

Lemma keeps_state_raise {A} (e : exn) : keeps_state (S:=S) (E:=E) (raise (A:=A) e).
Proof. by intros s. Qed.

Lemma keeps_state_lift {A} (o : outcome A) : keeps_state (S:=S) (E:=E) (lift o).
Proof. by destruct o; intros s. Qed.

Lemma keeps_state_emit (ev : E) : keeps_state (S:=S) (emit ev).
Proof. by intros s. Qed.

Lemma keeps_state_bind {A B} (m : script S E A) (k : A → script S E B) :
  keeps_state m → (∀ a, keeps_state (k a)) → keeps_state (bind m k).
Proof.
  intros Hm Hk s. specialize (Hm s). unfold state_of in *. cbn.
  destruct (run m s) as [[t1 s1] [a|e|]]; cbn in *; try done. subst s1.
  specialize (Hk a s). by destruct (run (k a) s) as [[t2 s2] r].
Qed.

Lemma keeps_state_try_except {A} catches (body : script S E A) handler :
  keeps_state body → (∀ e, keeps_state (handler e)) →
  keeps_state (try_except catches body handler).
Proof.
  intros Hb Hh s. specialize (Hb s). unfold state_of in *. cbn.
  destruct (run body s) as [[t1 s1] [a|e|]]; cbn in *; try done.
  destruct (catches e); cbn; try done. subst s1.
  specialize (Hh e s). by destruct (run (handler e) s) as [[t2 s2] r].
Qed.

(** After an update, a script that keeps the state leaves the update. *)
Lemma state_of_modify_then {A} (f : S → S) (k : script S E A) s :
  keeps_state k → state_of (run (bind (modify f) (λ _, k)) s) = f s.
Proof.
  intros Hk. specialize (Hk (f s)). unfold state_of in *. cbn.
  by destruct (run k (f s)) as [[t2 s2] r].
Qed.

(** A handler that keeps the state leaves the state the body reached. *)
Lemma state_of_try_except {A} catches (body : script S E A) handler s :
  (∀ e, keeps_state (handler e)) →
  state_of (run (try_except catches body handler) s) = state_of (run body s).
Proof.
  intros Hh. unfold state_of. cbn.
  destruct (run body s) as [[t1 s1] [a|e|]]; cbn; try done.
  destruct (catches e); cbn; try done.
  specialize (Hh e s1). unfold state_of in Hh.
  by destruct (run (handler e) s1) as [[t2 s2] r].
Qed.
End state_lemmas.

Ltac keeps_state_auto :=
  repeat first
    [ apply keeps_state_bind; [| intros ?]
    | apply keeps_state_try_except; [| intros ?]
    | apply keeps_state_ret | apply keeps_state_raise
    | apply keeps_state_lift | apply keeps_state_emit
    | match goal with
      | |- keeps_state (match ?x with _ => _ end) => destruct x
      | |- keeps_state (if ?b then _ else _) => destruct b
      end ].

Lemma show_explanation_state (w : env) (result : pyval) (s : gmap string pyobj) :
  state_of (run (show_explanation w result) s) = <["selected_anomaly" := Val result]> s.
Proof.
  unfold show_explanation, set_item.
  rewrite state_of_modify_then; [done|].
  unfold show_anomaly_details. keeps_state_auto.
Qed.

(** The handler stores a result only when the generator returned it for
    this very request, and then it stores exactly that result. *)
Lemma generate_explanation_state (w : env) (explain : explain_fn)
    (date_str : pyobj) (index : nat) (prediction_df : pyobj) (s : gmap string pyobj) :
  let s' := state_of (run (generate_explanation w explain date_str index prediction_df) s) in
  s' = s ∨
  ∃ result, explain date_str index prediction_df (aux_of w) = Returns result ∧
            explanation_ok result = Returns true ∧
            s' = <["selected_anomaly" := Val result]> s.
Proof.
  intros s'. subst s'. rewrite run_generate_explanation.
  pose proof (show_explanation_state w) as Hse.
  generalize dependent (show_explanation w). intros SE Hse.
  match goal with
  | |- context [run (try_except ?c ?b ?h) s] =>
      pose proof (state_of_try_except c b h s) as Hte;
      destruct (run (try_except c b h) s) as [[t1 s1] r1]
  end.
  unfold state_of at 1 in Hte. cbn in Hte. unfold state_of at 1. cbn.
  rewrite Hte; [| intros e; keeps_state_auto].
  unfold state_of. cbn.
  destruct (explain date_str index prediction_df (aux_of w)) as [result|e]; cbn; [| by left].
  destruct (explanation_ok result) as [[|]|e] eqn:Hok; cbn; try by left.
  right. exists result. split_and!; try done.
  specialize (Hse result s). unfold state_of in Hse.
  by destruct (run (SE result) s) as [[t2 s2] r2].
Qed.

Lemma keeps_state_footer : keeps_state footer.
Proof. unfold footer. keeps_state_auto. Qed.

Lemma date_is_selected_lookup (s : gmap string pyobj) :
  date_is_selected s = Returns true → is_Some (s !! "selected_date").
Proof. unfold date_is_selected. destruct (s !! "selected_date"); [eauto | done]. Qed.

(** X21: within one run of the dashboard, the stored explanation is either
    the one the session had after the sidebar, or the generator's answer
    to the request made in this run, for the date and the index that the
    session holds at the end of the run. *)
Lemma stored_result_answers_the_request (w : env) (ui : widgets)
    (fns : get_anomalies_fn * explain_fn) (prediction_df : pyobj) (s : gmap string pyobj) :
  let s0 := after_sidebar ui s in
  let s' := state_of (run (dashboard w ui fns prediction_df) s) in
  s' !! "selected_anomaly" = s0 !! "selected_anomaly" ∨
  ∃ date_str index result,
    s' !! "selected_date" = Some date_str ∧
    s' !! "selected_index" = Some (Val (PyInt (Z.of_nat index))) ∧
    fns.2 date_str index prediction_df (aux_of w) = Returns result ∧
    s' !! "selected_anomaly" = Some (Val result).
Proof.
  intros s0 s'. subst s'. rewrite run_dashboard. fold s0.
  pose proof (generate_explanation_state w fns.2) as Hge.
  unfold main_pane, query_and_show, show_anomalies, set_item.
  generalize dependent (generate_explanation w fns.2). intros GE Hge.
  unfold state_of in *. cbn -[anomaly_summary].
  destruct (date_is_selected s0) as [[|]|e] eqn:Hsel; cbn -[anomaly_summary]; try by left.
  destruct (date_is_selected_lookup s0 Hsel) as [date_str Hdate]. rewrite Hdate.
  cbn -[anomaly_summary].
  destruct (fns.1 date_str prediction_df) as [[[|row rows]|]|e]; cbn -[anomaly_summary];
    try by left.
  destruct (anomaly_summary w (row :: rows)) as [summary|e]; cbn -[anomaly_summary].
  2: { left. by rewrite lookup_insert_ne. }
  destruct (generate_clicked ui); cbn.
  2: { left. by rewrite !lookup_insert_ne. }
  match goal with
  | |- context [run (GE date_str ?i prediction_df) ?st] =>
      specialize (Hge date_str i prediction_df st);
      destruct (run (GE date_str i prediction_df) st) as [[t1 s1] r1];
      set (index := i) in *
  end.
  cbn in Hge. destruct Hge as [-> | (result & Hres & _ & ->)].
  - left. destruct r1; cbn; by rewrite !lookup_insert_ne.
  - right. exists date_str, index, result.
    destruct r1; cbn; split_and!; by simplify_map_eq.
Qed.

(** ** A worked session *)

(** Before any date is confirmed the page shows its instructions. *)
Example idle_page :
  run (app snapshot_env idle) ∅ =
    ([ StSetPageConfig;
       StTitle [Lit "🔍 IoT Security Anomaly Analysis"];
       StMarkdown [Lit "Analyze security anomalies detected in IoT sensor data using LLM-powered explanations"];
       OsPathExists "full_pivot_df.pkl"; OpenRb "full_pivot_df.pkl";
       CacheStore (Frame sample_rows);
       Import "anomaly_functions" ]
       ++ sidebar_events ++ welcome_events ++ footer_events,
     {[ "prediction_df" := Val PyNone; "functions_loaded" := Val (PyBool true) ]},
     Ok tt).
Proof. vm_compute. reflexivity. Qed.

(** Index 2 of the three anomalies of 2011-06-01, with a generator that
    answers [{explanation: "X", anomaly: record}]: the session holds
    exactly that answer. *)
Example explanation_ready :
  let s := state_of (run (app snapshot_env explain_third) ∅) in
  result_of (run (app snapshot_env explain_third) ∅) = Ok tt ∧
  s !! "selected_date" = Some (Val (PyStr "2011-06-01")) ∧
  s !! "anomalies" = Some (Frame sample_rows) ∧
  s !! "selected_index" = Some (Val (PyInt 2)) ∧
  s !! "selected_anomaly" =
    Some (Val (PyDict {[ "explanation" := PyStr "X";
                         "anomaly" := PyDict (sample_row "2011-06-01 23:05:00" "Bedroom"
                                                         (FFin 15 (-4))) ]})).
Proof. vm_compute. split_and!; reflexivity. Qed.

(** Confirming 2011-06-02 afterwards clears it. *)
Example next_date_clears :
  let s1 := state_of (run (app snapshot_env explain_third) ∅) in
  let s2 := state_of (run (app snapshot_env find_on_june_2) s1) in
  s2 !! "selected_date" = Some (Val (PyStr "2011-06-02")) ∧
  s2 !! "anomalies" = Some (Val PyNone) ∧
  s2 !! "selected_index" = Some (Val PyNone) ∧
  s2 !! "selected_anomaly" = Some (Val PyNone).
Proof. vm_compute. split_and!; reflexivity. Qed.

(** * Further properties of the two scripts *)

(** ** How the script combinators end, write and read *)

Section script_facts.
Context {S E : Type}.

Lemma never_stops_ret {A} (a : A) : never_stops (S:=S) (E:=E) (ret a).
Proof. by intros s. Qed.

Lemma never_stops_raise {A} (e : exn) : never_stops (S:=S) (E:=E) (raise (A:=A) e).
Proof. by intros s. Qed.

Lemma never_stops_lift {A} (o : outcome A) : never_stops (S:=S) (E:=E) (lift o).
Proof. by destruct o; intros s. Qed.

Lemma never_stops_emit (ev : E) : never_stops (S:=S) (emit ev).
Proof. by intros s. Qed.

Lemma never_stops_modify (f : S → S) : never_stops (E:=E) (modify f).
Proof. by intros s. Qed.

Lemma never_stops_get_state : never_stops (S:=S) (E:=E) get_state.
Proof. by intros s. Qed.

Lemma never_stops_bind {A B} (m : script S E A) (k : A → script S E B) :
  never_stops m → (∀ a, never_stops (k a)) → never_stops (bind m k).
Proof.
  intros Hm Hk s. specialize (Hm s). unfold result_of in *. cbn.
  destruct (run m s) as [[t1 s1] [a|e|]]; cbn in *; try done.
  specialize (Hk a s1). by destruct (run (k a) s1) as [[t2 s2] r].
Qed.

Lemma never_stops_try_except {A} catches (body : script S E A) handler :
  never_stops body → (∀ e, never_stops (handler e)) →
  never_stops (try_except catches body handler).
Proof.
  intros Hb Hh s. specialize (Hb s). unfold result_of in *. cbn.
  destruct (run body s) as [[t1 s1] [a|e|]]; cbn in *; try done.
  destruct (catches e); cbn; try done.
  specialize (Hh e s1). by destruct (run (handler e) s1) as [[t2 s2] r].
Qed.

(** [try: ... except Exception: ...] around a body that does not stop the
    page, with a handler that always completes, always completes. *)
Lemma always_completes_try_except (body : script S E unit) handler :
  never_stops body → (∀ e, always_completes (handler e)) →
  always_completes (try_except any_Exception body handler).
Proof.
  intros Hb Hh s. specialize (Hb s). unfold result_of in *. cbn.
  destruct (run body s) as [[t1 s1] [[]|e|]]; cbn in *; try done.
  specialize (Hh e s1). unfold result_of in Hh.
  by destruct (run (handler e) s1) as [[t2 s2] r].
Qed.

Lemma always_completes_emit (ev : E) : always_completes (S:=S) (emit ev).
Proof. by intros s. Qed.

Lemma always_completes_ret : always_completes (S:=S) (E:=E) (ret tt).
Proof. by intros s. Qed.

Lemma always_completes_bind {A} (m : script S E A) (k : A → script S E unit) :
  never_stops m → (∀ e s, result_of (run m s) ≠ Raised e) →
  (∀ a, always_completes (k a)) → always_completes (bind m k).
Proof.
  intros Hstop Hraise Hk s. specialize (Hstop s). specialize (λ e, Hraise e s).
  unfold result_of in *. cbn.
  destruct (run m s) as [[t1 s1] [a|e|]]; cbn in *; [| by destruct (Hraise e) | done].
  specialize (Hk a s1). unfold result_of in Hk.
  by destruct (run (k a) s1) as [[t2 s2] r].
Qed.

Lemma always_completes_then (m k : script S E unit) :
  always_completes m → always_completes k → always_completes (bind m (λ _, k)).
Proof.
  intros Hm Hk. apply always_completes_bind; [| | done].
  - intros s. by rewrite Hm.
  - intros e s. by rewrite Hm.
Qed.

Lemma oblivious_ret {A} (a : A) : oblivious (S:=S) (E:=E) (ret a).
Proof. by intros s1 s2. Qed.

Lemma oblivious_raise {A} (e : exn) : oblivious (S:=S) (E:=E) (raise (A:=A) e).
Proof. by intros s1 s2. Qed.

Lemma oblivious_stop {A} : oblivious (S:=S) (E:=E) (stop (A:=A)).
Proof. by intros s1 s2. Qed.

Lemma oblivious_lift {A} (o : outcome A) : oblivious (S:=S) (E:=E) (lift o).
Proof. by destruct o; intros s1 s2. Qed.

Lemma oblivious_emit (ev : E) : oblivious (S:=S) (emit ev).
Proof. by intros s1 s2. Qed.

Lemma oblivious_modify (f : S → S) : oblivious (E:=E) (modify f).
Proof. by intros s1 s2. Qed.

Lemma oblivious_bind {A B} (m : script S E A) (k : A → script S E B) :
  oblivious m → (∀ a, oblivious (k a)) → oblivious (bind m k).
Proof.
  intros Hm Hk s1 s2. destruct (Hm s1 s2) as [Ht Hr].
  unfold trace_of, result_of in *. cbn.
  destruct (run m s1) as [[t1 s1'] r1], (run m s2) as [[t2 s2'] r2]; cbn in *.
  subst t2 r2. destruct r1 as [a|e|]; try done.
  destruct (Hk a s1' s2') as [Ht Hr]. unfold trace_of, result_of in *.
  destruct (run (k a) s1') as [[t3 s3] r3], (run (k a) s2') as [[t4 s4] r4]; cbn in *.
  by subst.
Qed.

Lemma oblivious_try_except {A} catches (body : script S E A) handler :
  oblivious body → (∀ e, oblivious (handler e)) →
  oblivious (try_except catches body handler).
Proof.
  intros Hb Hh s1 s2. destruct (Hb s1 s2) as [Ht Hr].
  unfold trace_of, result_of in *. cbn.
  destruct (run body s1) as [[t1 s1'] r1], (run body s2) as [[t2 s2'] r2]; cbn in *.
  subst t2 r2. destruct r1 as [a|e|]; try done.
  destruct (catches e); [|done].
  destruct (Hh e s1' s2') as [Ht Hr]. unfold trace_of, result_of in *.
  destruct (run (handler e) s1') as [[t3 s3] r3], (run (handler e) s2') as [[t4 s4] r4];
    cbn in *.
  by subst.
Qed.
End script_facts.

Section writes_only_facts.
Context {E : Type}.
Implicit Types (keys : list string).

Lemma writes_only_ret keys {A} (a : A) : writes_only (E:=E) keys (ret a).
Proof. by intros s key. Qed.

Lemma writes_only_raise keys {A} (e : exn) : writes_only (E:=E) keys (raise (A:=A) e).
Proof. by intros s key. Qed.

Lemma writes_only_stop keys {A} : writes_only (E:=E) keys (stop (A:=A)).
Proof. by intros s key. Qed.

Lemma writes_only_lift keys {A} (o : outcome A) : writes_only (E:=E) keys (lift o).
Proof. by destruct o; intros s key. Qed.

Lemma writes_only_emit keys (ev : E) : writes_only keys (emit ev).
Proof. by intros s key. Qed.

Lemma writes_only_get_state keys : writes_only (E:=E) keys get_state.
Proof. by intros s key. Qed.

Lemma writes_only_insert keys (key : string) (o : pyobj) :
  key ∈ keys → writes_only (E:=E) keys (modify (λ s : gmap string pyobj, <[key := o]> s)).
Proof.
  intros Hin s key' Hout. cbn. apply lookup_insert_ne. by intros ->.
Qed.

Lemma writes_only_bind keys {A B} (m : script (gmap string pyobj) E A)
    (k : A → script (gmap string pyobj) E B) :
  writes_only keys m → (∀ a, writes_only keys (k a)) → writes_only keys (bind m k).
Proof.
  intros Hm Hk s key Hout. specialize (Hm s key Hout). unfold state_of in *. cbn.
  destruct (run m s) as [[t1 s1] [a|e|]]; cbn in *; try done.
  specialize (Hk a s1 key Hout). unfold state_of in Hk.
  destruct (run (k a) s1) as [[t2 s2] r]; cbn in *. congruence.
Qed.

Lemma writes_only_try_except keys {A} catches
    (body : script (gmap string pyobj) E A) handler :
  writes_only keys body → (∀ e, writes_only keys (handler e)) →
  writes_only keys (try_except catches body handler).
Proof.
  intros Hb Hh s key Hout. specialize (Hb s key Hout). unfold state_of in *. cbn.
  destruct (run body s) as [[t1 s1] [a|e|]]; cbn in *; try done.
  destruct (catches e); cbn; try done.
  specialize (Hh e s1 key Hout). unfold state_of in Hh.
  destruct (run (handler e) s1) as [[t2 s2] r]; cbn in *. congruence.
Qed.
End writes_only_facts.

Ltac script_case :=
  match goal with
  | |- _ (match ?x with _ => _ end) => destruct x
  | |- _ (if ?b then _ else _) => destruct b
  | |- _ (let _ := _ in _) => cbv zeta
  | |- _ _ (match ?x with _ => _ end) => destruct x
  | |- _ _ (if ?b then _ else _) => destruct b
  | |- _ _ (let _ := _ in _) => cbv zeta
  end.

Ltac never_stops_auto :=
  repeat first
    [ apply never_stops_bind; [| intros ?]
    | apply never_stops_try_except; [| intros ?]
    | apply never_stops_ret | apply never_stops_raise | apply never_stops_lift
    | apply never_stops_emit | apply never_stops_modify | apply never_stops_get_state
    | script_case ].

Ltac always_completes_auto :=
  repeat first
    [ apply always_completes_then
    | apply always_completes_emit | apply always_completes_ret ].

Ltac oblivious_auto :=
  repeat first
    [ apply oblivious_bind; [| intros ?]
    | apply oblivious_try_except; [| intros ?]
    | apply oblivious_ret | apply oblivious_raise | apply oblivious_stop
    | apply oblivious_lift | apply oblivious_emit | apply oblivious_modify
    | script_case ].

Ltac writes_only_auto :=
  repeat first
    [ apply writes_only_bind; [| intros ?]
    | apply writes_only_try_except; [| intros ?]
    | apply writes_only_ret | apply writes_only_raise | apply writes_only_stop
    | apply writes_only_lift | apply writes_only_emit | apply writes_only_get_state
    | apply writes_only_insert; solve [repeat constructor]
    | script_case ].

(** ** Finding the two functions (lines 36-55 and 70-85) *)

(** X1: [load_functions] never fails and never touches the session.  It
    comes back with the two attributes of [code_new] when that module
    can be imported (each [None] when [code_new] lacks it, without
    looking any further), with those of [__main__] when importing
    [code_new] raises, and with [(None, None)] when both imports raise;
    all it does is import. *)
Theorem load_functions_never_fails (w : env) (s : gmap string pyobj) :
  let r := run (load_functions w) s in
  result_of r = Ok (fallback_functions w) ∧
  state_of r = s ∧
  Forall (λ ev, ev = Import "code_new" ∨ ev = Import "__main__") (trace_of r) ∧
  (∀ fns, code_new w = Returns fns →
          fallback_functions w = fns ∧ trace_of r = [Import "code_new"]).
Proof.
  unfold load_functions, fallback_functions, import_main. cbn.
  destruct (code_new w) as [fns|e]; cbn.
  - split_and!; try done; [| by intros ? [= <-]].
    repeat (constructor; [by (left + right) |]). constructor.
  - destruct (main_module w) as [ns|]; cbn; split_and!; try done.
    all: repeat (constructor; [by (left + right) |]); constructor.
Qed.

(** X2: when [anomaly_functions] gives the two functions, they are the
    ones used, [functions_loaded] becomes [True] and nothing else is
    tried; when the import raises something that is not an
    [ImportError], the fallback is not tried and the exception leaves
    the script, the session as it was. *)
Theorem import_functions_primary (w : env) (s : gmap string pyobj) :
  match anomaly_functions w with
  | Returns fns =>
      run (import_functions w) s
        = ([Import "anomaly_functions"],
           <["functions_loaded" := Val (PyBool true)]> s, Ok fns)
  | Raises e =>
      is_ImportError e = false →
      run (import_functions w) s = ([Import "anomaly_functions"], s, Raised e)
  end.
Proof.
  unfold import_functions, set_item. cbn.
  destruct (anomaly_functions w) as [fns|e]; cbn; [done|].
  by intros ->.
Qed.

Lemma import_functions_primary_witness :
  run (import_functions broken_module_env) ∅
    = ([Import "anomaly_functions"], ∅,
       Raised (Exn (OtherError "SyntaxError") "invalid syntax")).
Proof. apply (import_functions_primary broken_module_env ∅). reflexivity. Defined.

(** X3: when importing [anomaly_functions] raises an [ImportError], the
    functions are those [load_functions] finds, provided it finds both;
    [functions_loaded] is then left as it was, although the functions
    are there.  When one of the two is missing the page shows the
    functions error with its instructions, as the last two things of the
    run, and stops.  Before that nothing happens but imports. *)
Theorem import_functions_fallback (w : env) (s : gmap string pyobj) (e : exn) :
  anomaly_functions w = Raises e → is_ImportError e = true →
  let r := run (import_functions w) s in
  state_of r = s ∧
  match fallback_functions w with
  | (Some get_anomalies_by_date, Some explain_single_anomaly) =>
      result_of r = Ok (get_anomalies_by_date, explain_single_anomaly) ∧
      Forall (λ ev, ∃ m, ev = Import m) (trace_of r)
  | _ =>
      result_of r = Stopped ∧
      ∃ t, trace_of r = t ++ functions_missing_events ∧
           Forall (λ ev, ∃ m, ev = Import m) t
  end.
Proof.
  intros He Himp.
  unfold import_functions, load_functions, fallback_functions, import_main, set_item. cbn.
  rewrite He. cbn. rewrite Himp.
  destruct (code_new w) as [[[g|] [x|]]|e2]; cbn;
    [| | | | destruct (main_module w) as [[vars [g|] [x|]]|]; cbn ].
  all: split; [done|].
  all: try (split; [done|]; by repeat (constructor; [by eexists|]); constructor).
  all: split; [done|].
  all: first [ by eexists [_; _]; split; [done | repeat (constructor; [by eexists|]); constructor]
             | by eexists [_; _; _]; split; [done | repeat (constructor; [by eexists|]); constructor] ].
Qed.

Lemma import_functions_fallback_witness :
  result_of (run (import_functions notebook_env) ∅)
    = Ok (sample_get_anomalies, sample_explain) ∧
  result_of (run (import_functions no_functions_env) ∅) = Stopped.
Proof.
  split.
  - pose proof (import_functions_fallback notebook_env ∅ _ eq_refl eq_refl) as [_ H].
    change (fallback_functions notebook_env)
      with (Some sample_get_anomalies, Some sample_explain) in H.
    exact (proj1 H).
  - pose proof (import_functions_fallback no_functions_env ∅ _ eq_refl eq_refl) as [_ H].
    change (fallback_functions no_functions_env)
      with (@None get_anomalies_fn, @None explain_fn) in H.
    exact (proj1 H).
Defined.

(** ** The session keys (lines 17-21) *)

(** X4: initialising the session overwrites nothing.  A key that has a
    value keeps it, [prediction_df] and [functions_loaded] get [None]
    and [False] only where they are missing, no other key is touched,
    nothing is shown, and doing it again changes nothing. *)
Theorem init_session_state_keeps_values (s : gmap string pyobj) :
  let s' := state_of (run init_session_state s) in
  run init_session_state s = ([], s', Ok tt) ∧
  (∀ key v, s !! key = Some v → s' !! key = Some v) ∧
  (∀ key, key ≠ "prediction_df" → key ≠ "functions_loaded" → s' !! key = s !! key) ∧
  s' !! "prediction_df" = Some (default (Val PyNone) (s !! "prediction_df")) ∧
  s' !! "functions_loaded" = Some (default (Val (PyBool false)) (s !! "functions_loaded")) ∧
  state_of (run init_session_state s') = s'.
Proof.
  unfold init_session_state, set_if_absent, state_of. cbn.
  destruct (s !! "prediction_df") as [p|] eqn:Hp;
    [| rewrite lookup_insert_ne by done ];
    destruct (s !! "functions_loaded") as [f|] eqn:Hf; cbn.
  all: split_and!; try done.
  all: try (intros key v Hkey;
            destruct (decide (key = "prediction_df")) as [->|];
            destruct (decide (key = "functions_loaded")) as [->|];
            by simplify_map_eq).
  all: try (intros key ? ?; by simplify_map_eq).
  all: by simplify_map_eq.
Qed.

(** ** The snapshot helper, and the dashboard after it *)

Ltac save_cases w :=
  destruct w as [g op dump]; cbn in *;
  unfold SetupStreamlit.save_for_streamlit, SetupStreamlit.dump_to,
    SetupStreamlit.py_open_wb, SetupStreamlit.py_pickle_dump; cbn;
  destruct (g !! "full_pivot_df") as [full|] eqn:Hfull;
    [| destruct (g !! "test_pivot_df") as [test|] eqn:Htest ];
  repeat match goal with
         | |- context [match op ?p with _ => _ end] => destruct (op p) eqn:?; cbn
         | |- context [match dump ?o with _ => _ end] => destruct (dump o) eqn:?; cbn
         end;
  cbn.

(** X5: [save_for_streamlit] writes at most one table: [full_pivot_df]
    to [full_pivot_df.pkl] when the globals have it, and only otherwise
    [test_pivot_df] to [test_pivot_df.pkl]; no other file is opened.
    When nothing fails the run is: open, dump, the line that reports the
    save, the four closing lines.  When opening or dumping fails, the
    table is not written and none of the closing lines is printed. *)
Theorem save_for_streamlit_saves_one_table (w : SetupStreamlit.env) :
  let t := trace_of (run (SetupStreamlit.save_for_streamlit w) tt) in
  match picked_table w with
  | Some (path, obj) =>
      Forall (λ ev, written_path ev = None ∨ written_path ev = Some path) t ∧
      (first_failure w = None →
       t = [ SetupStreamlit.OpenWb path; SetupStreamlit.PickleDump path obj;
             SetupStreamlit.Print [Lit ("✓ Saved " +:+ path)] ]
             ++ SetupStreamlit.closing_prints) ∧
      (∀ e, first_failure w = Some e →
            Forall (λ ev, ∀ o, ev ≠ SetupStreamlit.PickleDump path o) t ∧
            Forall (λ ev, ev ∉ SetupStreamlit.closing_prints) t)
  | None => t = SetupStreamlit.closing_prints
  end.
Proof.
  unfold picked_table, first_failure, trace_of. save_cases w; try done.
  all: split_and!; try done.
  all: try (by repeat (constructor; [by (left + right) |]); constructor).
  all: intros e' [= <-]; split.
  all: repeat (constructor; [try done |]); try constructor.
  all: unfold SetupStreamlit.closing_prints;
       rewrite ?elem_of_cons, ?elem_of_nil; intuition discriminate.
Qed.

(** What the helper leaves on the disk. *)
Lemma disk_after_cases (nb : SetupStreamlit.env) (fs : gmap string file_state) :
  disk_after nb fs =
    match picked_table nb with
    | Some (path, obj) =>
        match SetupStreamlit.open_wb nb path with
        | Some _ => fs
        | None =>
            match SetupStreamlit.pickle_dump nb obj with
            | Some _ => <[path := truncated]> fs
            | None => <[path := Pickled obj]> (<[path := truncated]> fs)
            end
        end
    | None => fs
    end.
Proof.
  unfold disk_after, picked_table, trace_of. save_cases nb; done.
Qed.

(** X6: the helper and the dashboard agree on the file, and the cache
    decides whether the file is read.  From the same directory, once
    [save_for_streamlit] has saved a table without failing, a server
    that has no value cached for [load_prediction_data] returns that
    very table, provided the table went to [full_pivot_df.pkl] or no
    [full_pivot_df.pkl] is lying there; it opens that one file and then
    caches the table.  A server that has a cached value returns it,
    [None] included, and opens no file: the table just saved is not
    seen. *)
Theorem saved_table_is_loaded (nb : SetupStreamlit.env) (w : env)
    (fs : gmap string file_state) (s : gmap string pyobj) (path : string) (obj : pyobj) :
  picked_table nb = Some (path, obj) →
  first_failure nb = None →
  path = "full_pivot_df.pkl" ∨ fs !! "full_pivot_df.pkl" = None →
  let r := run (load_prediction_data (with_files (disk_after nb fs) w)) s in
  match data_cache w with
  | None =>
      result_of r = Ok obj ∧
      trace_of r
        = (if decide (path = "full_pivot_df.pkl")
           then [OsPathExists "full_pivot_df.pkl"; OpenRb "full_pivot_df.pkl"]
           else [OsPathExists "full_pivot_df.pkl"; OsPathExists "test_pivot_df.pkl";
                 OpenRb "test_pivot_df.pkl"])
          ++ [CacheStore obj]
  | Some cached => r = ([], s, Ok cached)
  end.
Proof.
  intros Hpick Hok Hfree. cbv zeta.
  unfold load_prediction_data at 1 2 3. cbn [with_files data_cache].
  destruct (data_cache w) as [cached|]; [done|].
  rewrite disk_after_cases, Hpick.
  unfold first_failure, picked_table in *.
  destruct (SetupStreamlit.globals nb !! "full_pivot_df") as [full|];
    [| destruct (SetupStreamlit.globals nb !! "test_pivot_df") as [test|]; [|done] ];
    injection Hpick as <- <-;
    destruct (SetupStreamlit.open_wb nb _); try done;
    destruct (SetupStreamlit.pickle_dump nb _); try done.
  - unfold load_prediction_data_body, with_files, read_pickle. cbn.
    by rewrite lookup_insert_eq.
  - destruct Hfree as [? | Hfree]; [done|].
    unfold load_prediction_data_body, with_files, read_pickle. cbn.
    rewrite !lookup_insert_ne by done. rewrite Hfree. cbn.
    by rewrite lookup_insert_eq.
Qed.

Lemma saved_table_is_loaded_witness :
  (result_of (run (load_prediction_data
                     (with_files (disk_after test_notebook ∅) (sample_env ∅ None))) ∅)
     = Ok (Frame sample_rows) ∧
   trace_of (run (load_prediction_data
                    (with_files (disk_after test_notebook ∅) (sample_env ∅ None))) ∅)
     = [OsPathExists "full_pivot_df.pkl"; OsPathExists "test_pivot_df.pkl";
        OpenRb "test_pivot_df.pkl"; CacheStore (Frame sample_rows)]) ∧
  run (load_prediction_data
         (with_files (disk_after test_notebook ∅)
                     (with_cache (Some (Val PyNone)) (sample_env ∅ None)))) ∅
    = ([], ∅, Ok (Val PyNone)).
Proof.
  split.
  - apply (saved_table_is_loaded test_notebook (sample_env ∅ None) ∅ ∅
             "test_pivot_df.pkl" (Frame sample_rows));
      [reflexivity | reflexivity | right; reflexivity].
  - apply (saved_table_is_loaded test_notebook
             (with_cache (Some (Val PyNone)) (sample_env ∅ None)) ∅ ∅
             "test_pivot_df.pkl" (Frame sample_rows));
      [reflexivity | reflexivity | right; reflexivity].
Defined.

(** X7: a [full_pivot_df.pkl] left over from an earlier session wins
    over the table just saved.  When the helper saves [test_pivot_df]
    (the globals have no [full_pivot_df]) and a [full_pivot_df.pkl] is
    in the directory, a server that has no value cached for the loader
    loads the old file and caches its content, or fails on it when it
    cannot be unpickled, and never looks at the new one. *)
Theorem stale_full_snapshot_shadows_saved_test (nb : SetupStreamlit.env) (w : env)
    (fs : gmap string file_state) (s : gmap string pyobj) (stale : file_state) (obj : pyobj) :
  picked_table nb = Some ("test_pivot_df.pkl", obj) →
  fs !! "full_pivot_df.pkl" = Some stale →
  data_cache w = None →
  run (load_prediction_data (with_files (disk_after nb fs) w)) s
    = match stale with
      | Pickled old =>
          ([OsPathExists "full_pivot_df.pkl"; OpenRb "full_pivot_df.pkl"; CacheStore old],
           s, Ok old)
      | Unreadable e =>
          ([OsPathExists "full_pivot_df.pkl"; OpenRb "full_pivot_df.pkl"], s, Raised e)
      end.
Proof.
  intros Hpick Hstale Hcache. rewrite disk_after_cases, Hpick.
  unfold load_prediction_data, load_prediction_data_body, with_files, read_pickle.
  cbn. rewrite Hcache. cbn.
  destruct (SetupStreamlit.open_wb nb _); [| destruct (SetupStreamlit.pickle_dump nb _)];
    rewrite ?lookup_insert_ne by done; rewrite Hstale; by destruct stale.
Qed.

Lemma stale_full_snapshot_shadows_saved_test_witness :
  run (load_prediction_data
         (with_files (disk_after test_notebook {[ "full_pivot_df.pkl" := Pickled (Frame []) ]})
                     (sample_env ∅ None))) ∅
    = ([OsPathExists "full_pivot_df.pkl"; OpenRb "full_pivot_df.pkl"; CacheStore (Frame [])],
       ∅, Ok (Frame [])).
Proof.
  apply (stale_full_snapshot_shadows_saved_test test_notebook (sample_env ∅ None)
           {[ "full_pivot_df.pkl" := Pickled (Frame []) ]} ∅ (Pickled (Frame []))
           (Frame sample_rows)); reflexivity.
Defined.

(** X8: a dump that fails costs the snapshot.  When [full_pivot_df.pkl]
    can be opened for writing and [pickle.dump] then raises, the helper
    still returns normally, but the file, whatever it held before, is
    left without a complete pickle (the model leaves it empty).  A
    server that has no value cached for the loader finds the file and
    raises from [pickle.load] instead of going on to
    [test_pivot_df.pkl] or to [__main__]; a server that has one does not
    open the file and goes on with the cached value. *)
Theorem failed_dump_leaves_unloadable_file (nb : SetupStreamlit.env) (w : env)
    (fs : gmap string file_state) (s : gmap string pyobj) (obj : pyobj) (e : exn) :
  SetupStreamlit.globals nb !! "full_pivot_df" = Some obj →
  SetupStreamlit.open_wb nb "full_pivot_df.pkl" = None →
  SetupStreamlit.pickle_dump nb obj = Some e →
  result_of (run (SetupStreamlit.save_for_streamlit nb) tt) = Ok tt ∧
  ∃ e', disk_after nb fs !! "full_pivot_df.pkl" = Some (Unreadable e') ∧
        run (load_prediction_data (with_files (disk_after nb fs) w)) s
          = match data_cache w with
            | None =>
                ([OsPathExists "full_pivot_df.pkl"; OpenRb "full_pivot_df.pkl"], s,
                 Raised e')
            | Some cached => ([], s, Ok cached)
            end.
Proof.
  intros Hfull Hopen Hdump. rewrite disk_after_cases.
  unfold picked_table. rewrite Hfull, Hopen, Hdump.
  split.
  - unfold SetupStreamlit.save_for_streamlit, SetupStreamlit.dump_to,
      SetupStreamlit.py_open_wb, SetupStreamlit.py_pickle_dump, result_of. cbn.
    rewrite Hfull. cbn. rewrite Hopen. cbn. by rewrite Hdump.
  - eexists. split; [by rewrite lookup_insert_eq|].
    unfold load_prediction_data, load_prediction_data_body, with_files, read_pickle. cbn.
    destruct (data_cache w); [done|]. cbn.
    by rewrite lookup_insert_eq.
Qed.

Lemma failed_dump_leaves_unloadable_file_witness :
  result_of (run (SetupStreamlit.save_for_streamlit unpicklable_notebook) tt) = Ok tt ∧
  ∃ e', result_of
          (run (load_prediction_data
                  (with_files
                     (disk_after unpicklable_notebook
                        {[ "full_pivot_df.pkl" := Pickled (Frame sample_rows) ]})
                     (sample_env ∅ None))) ∅)
        = Raised e'.
Proof.
  destruct (failed_dump_leaves_unloadable_file unpicklable_notebook (sample_env ∅ None)
              {[ "full_pivot_df.pkl" := Pickled (Frame sample_rows) ]} ∅
              (Opaque "generator") (Exn TypeError "cannot pickle 'generator' object"))
    as (Hsave & e' & _ & Hload); [reflexivity | reflexivity | reflexivity |].
  split; [exact Hsave|]. exists e'. by rewrite Hload.
Defined.

(** ** Errors stay on the page (lines 127-256) *)

Lemma never_stops_show_explanation (w : env) (result : pyval) :
  never_stops (show_explanation w result).
Proof.
  unfold show_explanation, show_anomaly_details, set_item. never_stops_auto.
Qed.

Lemma generate_explanation_completes (w : env) (explain : explain_fn)
    (date_str : pyobj) (index : nat) (prediction_df : pyobj) :
  always_completes (generate_explanation w explain date_str index prediction_df).
Proof.
  unfold generate_explanation.
  apply always_completes_then; [apply always_completes_emit |].
  apply always_completes_try_except; [| intros e; always_completes_auto].
  pose proof (never_stops_show_explanation w) as Hse.
  generalize dependent (show_explanation w). intros SE Hse.
  unfold gather_aux, import_main, generation_failed_error.
  never_stops_auto; apply Hse.
Qed.

Lemma never_stops_show_anomalies (w : env) (ui : widgets) (explain : explain_fn)
    (date_str prediction_df : pyobj) (rows : list (gmap string pyval)) :
  never_stops (show_anomalies w ui explain date_str prediction_df rows).
Proof.
  unfold show_anomalies, set_item.
  pose proof (generate_explanation_completes w explain date_str) as Hge.
  generalize dependent (generate_explanation w explain date_str). intros GE Hge.
  never_stops_auto. intros s. by rewrite Hge.
Qed.

Lemma query_and_show_completes (w : env) (ui : widgets)
    (fns : get_anomalies_fn * explain_fn) (date_str prediction_df : pyobj) :
  always_completes (query_and_show w ui fns date_str prediction_df).
Proof.
  unfold query_and_show.
  apply always_completes_try_except; [| intros e; always_completes_auto].
  pose proof (never_stops_show_anomalies w ui fns.2 date_str prediction_df) as Hsa.
  generalize dependent (show_anomalies w ui fns.2 date_str prediction_df). intros SA Hsa.
  never_stops_auto; apply Hsa.
Qed.

(** X9: errors stay on the page.  From the query on (lines 127-256)
    nothing raises to the script and nothing stops it: whatever the two
    collaborators, the summary table or the report do, the block runs to
    its end, and so does the handler of the Generate button inside it. *)
Theorem errors_stay_on_the_page (w : env) (ui : widgets)
    (fns : get_anomalies_fn * explain_fn) (date_str prediction_df : pyobj) (index : nat) :
  always_completes (query_and_show w ui fns date_str prediction_df) ∧
  always_completes (generate_explanation w fns.2 date_str index prediction_df).
Proof.
  split; [apply query_and_show_completes | apply generate_explanation_completes].
Qed.

Lemma query_and_show_queries_first (w : env) (ui : widgets)
    (fns : get_anomalies_fn * explain_fn) (date_str prediction_df : pyobj)
    (s : gmap string pyobj) :
  ∃ t, trace_of (run (query_and_show w ui fns date_str prediction_df) s)
         = CallGetAnomalies date_str prediction_df :: t.
Proof.
  unfold query_and_show, trace_of.
  generalize (show_anomalies w ui fns.2 date_str prediction_df). intros SA. cbn.
  destruct (fns.1 date_str prediction_df) as [[[|row rows]|]|e]; cbn; try by eexists.
  destruct (run (SA (row :: rows)) s) as [[t1 s1] [[]|e|]]; cbn; by eexists.
Qed.

(** X10: the dashboard always draws its sidebar, and it ends with the
    footer unless reading [selected_date] itself fails.  With a date in
    the session it first queries the anomalies of the date the session
    holds (not of the date picker) and completes whatever follows;
    without one it shows the welcome text and the instructions, and the
    session is what the sidebar left.  Only a [selected_date] whose
    truth value cannot be taken makes the script raise, right after the
    sidebar. *)
Theorem dashboard_reaches_footer (w : env) (ui : widgets)
    (fns : get_anomalies_fn * explain_fn) (prediction_df : pyobj) (s : gmap string pyobj) :
  let r := run (dashboard w ui fns prediction_df) s in
  let s0 := after_sidebar ui s in
  match date_is_selected s0 with
  | Returns true =>
      result_of r = Ok tt ∧
      ∃ t, trace_of r
             = sidebar_events
                 ++ CallGetAnomalies (default (Val PyNone) (s0 !! "selected_date"))
                                     prediction_df :: t
                 ++ footer_events
  | Returns false =>
      r = (sidebar_events ++ welcome_events ++ footer_events, s0, Ok tt)
  | Raises e =>
      r = (sidebar_events, s0, Raised e)
  end.
Proof.
  cbv zeta. rewrite run_dashboard. unfold main_pane.
  pose proof (query_and_show_completes w ui fns) as Hq.
  pose proof (query_and_show_queries_first w ui fns) as Hfirst.
  generalize dependent (query_and_show w ui fns). intros Q Hq Hfirst.
  unfold trace_of, result_of in *. cbn.
  destruct (date_is_selected (after_sidebar ui s)) as [[|]|e]; cbn; try done.
  match goal with
  | |- context [run (Q ?d ?p) ?st] =>
      specialize (Hq d p st); destruct (Hfirst d p st) as [t Ht];
      destruct (run (Q d p) st) as [[t1 s1] r1]
  end.
  cbn in *. subst r1 t1. cbn. split; [done|]. by exists t.
Qed.

(** ** The summary table (lines 141-156) *)

(** X11: when the summary table can be built it has one row per anomaly,
    in order: row [i] carries index [i], the time of the record's
    timestamp (['N/A'] when it is missing data), its activity or
    ['Unknown'], and its confidence or 0 formatted as a percentage; and
    every record then has a ['Timestamp']. *)
Theorem anomaly_summary_shape (w : env) (rows : list (gmap string pyval))
    (summary : list summary_row) :
  anomaly_summary w rows = Returns summary →
  length summary = length rows ∧
  ∀ i row, summary !! i = Some row →
    Index row = i ∧
    ∃ anomaly timestamp,
      rows !! i = Some anomaly ∧
      anomaly !! "Timestamp" = Some timestamp ∧
      time_text w timestamp = Returns (Time row) ∧
      Activity row = default (PyStr "Unknown") (anomaly !! "Activity") ∧
      Confidence row
        = [FmtPercent2 (default (PyInt 0) (anomaly !! "Prediction_Confidence"))].
Proof.
  intros Hsum. destruct (summary_from_shape w rows 0 summary Hsum) as [Hlen Hrows].
  split; [done|]. intros i row Hi.
  destruct (Hrows i row Hi) as (anomaly & Ha & Hentry).
  destruct (summary_entry_returns _ _ _ _ Hentry) as (Hidx & timestamp & ? & ? & ? & ?).
  split; [done|]. by exists anomaly, timestamp.
Qed.

Lemma anomaly_summary_shape_witness :
  length [SummaryRow 0 "2011-06-01 08:15:00" (PyStr "Unknown") [FmtPercent2 (PyInt 0)]]
    = length [bare_record] ∧
  Index (SummaryRow 0 "2011-06-01 08:15:00" (PyStr "Unknown") [FmtPercent2 (PyInt 0)]) = 0.
Proof.
  destruct (anomaly_summary_shape (sample_env ∅ None) [bare_record]
              [SummaryRow 0 "2011-06-01 08:15:00" (PyStr "Unknown") [FmtPercent2 (PyInt 0)]]
              eq_refl) as [Hlen Hrows].
  split; [exact Hlen|]. by destruct (Hrows 0 _ eq_refl) as [Hidx _].
Defined.

(** X12: a table without a ['Timestamp'] column cannot be listed.  When
    the query returns a DataFrame whose rows have no ['Timestamp'], the
    list is stored in the session and announced, then the first turn of
    the summary loop raises [KeyError], and the page shows the loading
    error instead of the table: no selector, no Generate button, for
    any of the anomalies; the run still completes. *)
Theorem table_without_timestamps_fails (w : env) (ui : widgets)
    (fns : get_anomalies_fn * explain_fn) (date_str prediction_df : pyobj)
    (rows : list (gmap string pyval)) (i : nat) (anomaly : gmap string pyval)
    (s : gmap string pyobj) :
  fns.1 date_str prediction_df = Returns (Some rows) →
  same_columns rows →
  rows !! i = Some anomaly →
  anomaly !! "Timestamp" = None →
  anomaly_summary w rows = Raises (Exn KeyError "Timestamp") ∧
  run (query_and_show w ui fns date_str prediction_df) s
    = (CallGetAnomalies date_str prediction_df
         :: found_events date_str (length rows)
         ++ loading_failed_events (Exn KeyError "Timestamp"),
       <["anomalies" := Frame rows]> s, Ok tt).
Proof.
  intros Hq Hsame Hi Hts.
  destruct rows as [|row rows]; [done|].
  assert (row !! "Timestamp" = None) as Hrow.
  { destruct (row !! "Timestamp") as [timestamp|] eqn:Hrow; [|done].
    destruct (Hsame row anomaly "Timestamp") as [x Hx].
    - by left.
    - by eapply list_elem_of_lookup_2.
    - by eexists.
    - by rewrite Hts in Hx. }
  assert (anomaly_summary w (row :: rows) = Raises (Exn KeyError "Timestamp")) as Hsum.
  { unfold anomaly_summary. cbn [summary_from].
    unfold summary_entry, py_getitem. by rewrite Hrow. }
  split; [done|].
  unfold query_and_show, show_anomalies, set_item.
  generalize (generate_explanation w fns.2 date_str). intros GE.
  cbn -[anomaly_summary]. rewrite Hq. cbn -[anomaly_summary].
  by rewrite Hsum.
Qed.

Lemma table_without_timestamps_fails_witness :
  run (query_and_show (sample_env ∅ None) idle
         (λ _ _, Returns (Some untimed_rows), sample_explain)
         (Val (PyStr "2011-06-01")) (Frame sample_rows)) ∅
    = (CallGetAnomalies (Val (PyStr "2011-06-01")) (Frame sample_rows)
         :: found_events (Val (PyStr "2011-06-01")) 2
         ++ loading_failed_events (Exn KeyError "Timestamp"),
       {[ "anomalies" := Frame untimed_rows ]}, Ok tt).
Proof.
  apply (table_without_timestamps_fails (sample_env ∅ None) idle
           (λ _ _, Returns (Some untimed_rows), sample_explain)
           (Val (PyStr "2011-06-01")) (Frame sample_rows) untimed_rows 1
           {[ "Activity" := PyStr "Bathroom"; "Prediction_Confidence" := PyFloat FNaN ]} ∅);
    [reflexivity | | reflexivity | reflexivity].
  intros r1 r2 key Hr1 Hr2. unfold untimed_rows in *.
  rewrite !elem_of_cons, elem_of_nil in Hr1, Hr2.
  destruct Hr1 as [-> | [-> | []]], Hr2 as [-> | [-> | []]]; try done.
  all: match goal with
       | |- is_Some (_ !! ?k) → _ =>
           destruct (decide (k = "Activity")) as [->|];
           [| destruct (decide (k = "Prediction_Confidence")) as [->|]]
       end.
  all: intros [x Hx]; simplify_map_eq; eauto.
Defined.

(** ** What the session holds after the main pane *)

Lemma explanation_ok_true (result : pyval) :
  explanation_ok result = Returns true →
  ∃ explanation, py_getitem "explanation" result = Returns explanation ∧
                 truthy explanation = true.
Proof.
  unfold explanation_ok. destruct (truthy result); [|done].
  destruct (py_contains "explanation" result) as [[|]|e]; cbn; try done.
  destruct (py_getitem "explanation" result) as [explanation|e]; cbn; [|done].
  intros [= Ht]. by exists explanation.
Qed.

Lemma show_explanation_trace (w : env) (result explanation : pyval) (s : gmap string pyobj) :
  py_getitem "explanation" result = Returns explanation →
  ∃ rest,
    trace_of (run (show_explanation w result) s)
      = [ StSubheader [Lit "📊 Anomaly Analysis Report"]; StMarkdown [Lit "---"];
          StTextArea [Lit "Full Report"] explanation;
          StExpander [Lit "📄 View Formatted Report"] ] ++ rest ∧
    match explanation with
    | PyStr report => ∃ rest', rest = StFormattedReport report :: rest'
    | _ => rest = [] ∧
           result_of (run (show_explanation w result) s)
             = Raised (Exn AttributeError "object has no attribute 'split'")
    end.
Proof.
  intros Hget. unfold show_explanation, set_item, trace_of, result_of.
  generalize (show_anomaly_details w result). intros D.
  cbn. rewrite Hget. cbn.
  destruct explanation; cbn; try (by eexists).
  destruct (run D _) as [[t1 s1] r1]. cbn. eexists. split; [done|]. by eexists.
Qed.

(** X13: a usable answer is stored before anything of it is shown.  When
    the generator returns a result whose ['explanation'] is truthy, the
    session's [selected_anomaly] becomes that result, whatever happens
    while the report is drawn; the handler completes; the report opens
    with its heading and the text area holding the explanation.  An
    explanation that is not a string is still stored and put in the
    text area, and then the formatted view fails with an
    [AttributeError] that is shown as a generation error. *)
Theorem usable_result_is_stored (w : env) (explain : explain_fn)
    (date_str : pyobj) (index : nat) (prediction_df : pyobj) (s : gmap string pyobj)
    (result : pyval) :
  explain date_str index prediction_df (aux_of w) = Returns result →
  explanation_ok result = Returns true →
  let r := run (generate_explanation w explain date_str index prediction_df) s in
  state_of r = <["selected_anomaly" := Val result]> s ∧
  result_of r = Ok tt ∧
  ∃ explanation rest,
    py_getitem "explanation" result = Returns explanation ∧
    trace_of r
      = request_events w date_str index prediction_df
          ++ [ StSubheader [Lit "📊 Anomaly Analysis Report"]; StMarkdown [Lit "---"];
               StTextArea [Lit "Full Report"] explanation;
               StExpander [Lit "📄 View Formatted Report"] ] ++ rest ∧
    match explanation with
    | PyStr report => ∃ rest', rest = StFormattedReport report :: rest'
    | _ => rest = generation_raised_events
                    (Exn AttributeError "object has no attribute 'split'")
    end.
Proof.
  intros Hres Hok r.
  destruct (explanation_ok_true result Hok) as (explanation & Hget & _).
  split_and!.
  - subst r. rewrite run_generate_explanation.
    pose proof (show_explanation_state w result s) as Hse.
    generalize dependent (show_explanation w). intros SE Hse.
    unfold state_of in *. cbn. rewrite Hres. cbn. rewrite Hok. cbn.
    destruct (run (SE result) s) as [[t1 s1] [[]|e|]]; cbn in *; by subst.
  - apply generate_explanation_completes.
  - exists explanation. subst r. rewrite run_generate_explanation.
    destruct (show_explanation_trace w result explanation s Hget) as (rest & Htrace & Hrest).
    generalize dependent (show_explanation w). intros SE Htrace Hrest.
    unfold trace_of, result_of in *. cbn. rewrite Hres. cbn. rewrite Hok. cbn.
    destruct (run (SE result) s) as [[t1 s1] r1]; cbn in *. subst t1.
    destruct explanation;
      try (destruct Hrest as [-> ->]; cbn; eexists; split_and!; done).
    destruct Hrest as [rest' ->].
    destruct r1; cbn; eexists; (split_and!; [done | | by eexists]);
      by rewrite <- ?app_assoc.
Qed.

Lemma usable_result_is_stored_witness :
  state_of (run (generate_explanation (sample_env ∅ None) sample_explain
                   (Val (PyStr "2011-06-01")) 2 (Frame sample_rows)) ∅)
    = {[ "selected_anomaly" :=
           Val (PyDict {[ "explanation" := PyStr "X";
                          "anomaly" := PyDict (sample_row "2011-06-01 23:05:00" "Bedroom"
                                                          (FFin 15 (-4))) ]}) ]}.
Proof.
  by destruct (usable_result_is_stored (sample_env ∅ None) sample_explain
                 (Val (PyStr "2011-06-01")) 2 (Frame sample_rows) ∅ _ eq_refl eq_refl)
    as [Hstate _].
Defined.

(** X14: after a run that lists anomalies, [selected_index] is a position
    of the list the session holds.  When the query returns a non-empty
    list whose summary can be built, the session has that list under
    [anomalies] and under [selected_index] a number below its length:
    the option picked when it is one of those offered.  This holds
    whether or not an explanation is requested, and whatever comes of
    the request. *)
Theorem selected_index_is_a_position (w : env) (ui : widgets)
    (fns : get_anomalies_fn * explain_fn) (date_str prediction_df : pyobj)
    (rows : list (gmap string pyval)) (summary : list summary_row) (s : gmap string pyobj) :
  fns.1 date_str prediction_df = Returns (Some rows) →
  rows ≠ [] →
  anomaly_summary w rows = Returns summary →
  let s' := state_of (run (query_and_show w ui fns date_str prediction_df) s) in
  let index := selectbox (seq 0 (length rows)) (selectbox_choice ui) in
  s' !! "anomalies" = Some (Frame rows) ∧
  s' !! "selected_index" = Some (Val (PyInt (Z.of_nat index))) ∧
  index < length rows ∧
  (selectbox_choice ui < length rows → index = selectbox_choice ui).
Proof.
  intros Hq Hrows Hsum s' index.
  assert (index < length rows) as Hlt.
  { apply selectbox_in_range. destruct rows; [done | cbn; lia]. }
  assert (s' !! "anomalies" = Some (Frame rows) ∧
          s' !! "selected_index" = Some (Val (PyInt (Z.of_nat index)))) as [Ha Hi];
    [| by split_and!; [| | | apply selectbox_offered]].
  subst s'. unfold query_and_show.
  rewrite state_of_try_except by (intros e s0; reflexivity).
  unfold show_anomalies, set_item.
  pose proof (generate_explanation_state w fns.2 date_str index prediction_df) as Hge.
  generalize dependent (generate_explanation w fns.2 date_str). intros GE Hge.
  unfold state_of in *. cbn -[anomaly_summary]. rewrite Hq.
  destruct rows as [|row rows]; [done|]. cbn -[anomaly_summary].
  rewrite Hsum. cbn.
  destruct (generate_clicked ui); cbn; [| split; by simplify_map_eq].
  match goal with
  | |- context [run (GE ?i prediction_df) ?st] =>
      pose proof (Hge st) as Hst;
      change (GE index prediction_df) with (GE i prediction_df) in Hst;
      destruct (run (GE i prediction_df) st) as [[t1 s1] r1]
  end.
  cbn in Hst. destruct Hst as [-> | (result & _ & _ & ->)].
  all: destruct r1; cbn; split; by simplify_map_eq.
Qed.

Lemma selected_index_is_a_position_witness :
  state_of (run (query_and_show (sample_env ∅ None) explain_third
                   (sample_get_anomalies, sample_explain)
                   (Val (PyStr "2011-06-01")) (Frame sample_rows)) ∅)
    !! "selected_index" = Some (Val (PyInt 2)).
Proof.
  destruct (selected_index_is_a_position (sample_env ∅ None) explain_third
              (sample_get_anomalies, sample_explain)
              (Val (PyStr "2011-06-01")) (Frame sample_rows) sample_rows
              [ SummaryRow 0 "2011-06-01 08:15:00" (PyStr "Kitchen")
                  [FmtPercent2 (PyFloat (FFin 7 (-3)))];
                SummaryRow 1 "2011-06-01 13:40:00" (PyStr "Bathroom")
                  [FmtPercent2 (PyFloat (FFin 3 (-2)))];
                SummaryRow 2 "2011-06-01 23:05:00" (PyStr "Bedroom")
                  [FmtPercent2 (PyFloat (FFin 15 (-4)))] ] ∅)
    as (_ & Hindex & _); [reflexivity | discriminate | reflexivity |].
  exact Hindex.
Defined.

(** ** The session across the whole script *)

Lemma writes_only_mono {E A} (keys keys' : list string)
    (m : script (gmap string pyobj) E A) :
  keys ⊆ keys' → writes_only keys m → writes_only keys' m.
Proof. intros Hsub Hm s key Hout. apply Hm. intros Hin. by apply Hout, Hsub. Qed.

Lemma writes_only_set_if_absent (keys : list string) (key : string) (o : pyobj) :
  key ∈ keys → writes_only keys (set_if_absent key o).
Proof.
  intros Hin s key' Hout. unfold set_if_absent, state_of. cbn.
  destruct (s !! key); [done|]. apply lookup_insert_ne. by intros ->.
Qed.

Lemma writes_only_confirm_date (date_str : string) :
  writes_only (E:=event) selection_keys (modify (confirm_date date_str)).
Proof.
  intros s key Hout. unfold confirm_date, state_of, selection_keys in *. cbn.
  rewrite !lookup_insert_ne; [done | ..]; intros <-; apply Hout; solve [repeat constructor].
Qed.

Lemma dashboard_writes_selection (w : env) (ui : widgets)
    (fns : get_anomalies_fn * explain_fn) (prediction_df : pyobj) :
  writes_only selection_keys (dashboard w ui fns prediction_df).
Proof.
  unfold dashboard, sidebar, main_pane, footer, query_and_show, show_anomalies,
    generate_explanation, show_explanation, show_anomaly_details, gather_aux,
    import_main, set_item.
  writes_only_auto; try apply writes_only_confirm_date.
  all: unfold selection_keys; writes_only_auto.
Qed.

(** Lines 57-101 assign [functions_loaded] and nothing else. *)
Lemma loading_writes_functions_loaded (w : env) :
  writes_only ["functions_loaded"]
    (prediction_df <- load_data w ;;
     fns <- import_functions w ;;
     require_prediction_df prediction_df ;;;
     ret (fns, prediction_df)).
Proof.
  unfold load_data, load_prediction_data, load_prediction_data_body, read_pickle,
    import_main, import_functions, load_functions, require_prediction_df, set_item.
  writes_only_auto.
Qed.

(** X15: a run assigns six session keys and no other:
    [prediction_df], [functions_loaded], [selected_date], [anomalies],
    [selected_anomaly] and [selected_index].  And [prediction_df] is
    only ever initialised: after any run it holds what it held before,
    or [None] when it was missing; the table the script loads is never
    stored in the session. *)
Theorem session_keys_of_a_run (w : env) (ui : widgets) (s : gmap string pyobj) :
  let s' := state_of (run (app w ui) s) in
  (∀ key, key ∉ session_keys → s' !! key = s !! key) ∧
  s' !! "prediction_df" = Some (default (Val PyNone) (s !! "prediction_df")).
Proof.
  pose proof (loading_writes_functions_loaded w) as Hload.
  pose proof (dashboard_writes_selection w ui) as Hdash.
  unfold app, prologue.
  match type of Hload with writes_only _ ?m => generalize dependent m end.
  intros L Hload.
  generalize dependent (dashboard w ui). intros D Hdash.
  unfold page_header, init_session_state, set_if_absent, writes_only, state_of,
    session_keys, selection_keys in *.
  cbn.
  set (s0 := match _ !! "functions_loaded" with Some _ => _ | None => _ end).
  assert (s0 !! "prediction_df" = Some (default (Val PyNone) (s !! "prediction_df")) ∧
          ∀ key, key ≠ "prediction_df" → key ≠ "functions_loaded" →
                 s0 !! key = s !! key) as [Hp0 Hother].
  { subst s0. destruct (s !! "prediction_df") as [p|] eqn:Hp; cbn;
      rewrite ?lookup_insert_ne by done;
      destruct (s !! "functions_loaded") eqn:Hf; split;
      try (intros key ? ?); by simplify_map_eq. }
  clearbody s0.
  pose proof (Hload s0) as Hl.
  destruct (run L s0) as [[t1 s1] r1]. cbn in Hl.
  assert (∀ key, key ≠ "functions_loaded" → s1 !! key = s0 !! key) as Hl'.
  { intros key ?. apply Hl. rewrite elem_of_cons, elem_of_nil. tauto. }
  assert (∀ (s2 : gmap string pyobj),
            (∀ key, key ∉ ["selected_date"; "anomalies"; "selected_anomaly";
                           "selected_index"] → s2 !! key = s1 !! key) →
            (∀ key, key ∉ ["prediction_df"; "functions_loaded"; "selected_date";
                           "anomalies"; "selected_anomaly"; "selected_index"] →
                    s2 !! key = s !! key) ∧
            s2 !! "prediction_df" = Some (default (Val PyNone) (s !! "prediction_df")))
    as Hend.
  { intros s2 Hs2. split.
    - intros key Hkey. rewrite !elem_of_cons, elem_of_nil in Hkey.
      rewrite Hs2 by (rewrite !elem_of_cons, elem_of_nil; tauto).
      rewrite Hl' by tauto. apply Hother; tauto.
    - rewrite Hs2 by (rewrite !elem_of_cons, elem_of_nil; intuition discriminate).
      by rewrite Hl'. }
  destruct r1 as [ctx|e|]; cbn; try (by apply Hend).
  specialize (Hdash ctx.1 ctx.2 s1).
  destruct (run (D ctx.1 ctx.2) s1) as [[t2 s2] r2]. cbn in *. by apply Hend.
Qed.

(** ** What a run reads of the session *)

Lemma oblivious_set_if_absent (key : string) (o : pyobj) :
  oblivious (set_if_absent key o).
Proof. by intros s1 s2. Qed.

Lemma oblivious_prologue (w : env) : oblivious (prologue w).
Proof.
  unfold prologue, page_header, init_session_state, load_data, load_prediction_data,
    load_prediction_data_body, read_pickle, import_main, import_functions,
    load_functions, require_prediction_df, set_item.
  oblivious_auto; apply oblivious_set_if_absent.
Qed.

Lemma oblivious_query_and_show (w : env) (ui : widgets)
    (fns : get_anomalies_fn * explain_fn) (date_str prediction_df : pyobj) :
  oblivious (query_and_show w ui fns date_str prediction_df).
Proof.
  unfold query_and_show, show_anomalies, generate_explanation, show_explanation,
    show_anomaly_details, gather_aux, import_main, set_item.
  oblivious_auto.
Qed.

Lemma after_sidebar_selected_date (ui : widgets) (s1 s2 : gmap string pyobj) :
  s1 !! "selected_date" = s2 !! "selected_date" →
  after_sidebar ui s1 !! "selected_date" = after_sidebar ui s2 !! "selected_date".
Proof.
  intros Hs. unfold after_sidebar, confirm_date.
  destruct (find_anomalies_clicked ui); [by simplify_map_eq | done].
Qed.

Lemma dashboard_reads_selected_date (w : env) (ui : widgets)
    (fns : get_anomalies_fn * explain_fn) (prediction_df : pyobj)
    (s1 s2 : gmap string pyobj) :
  s1 !! "selected_date" = s2 !! "selected_date" →
  trace_of (run (dashboard w ui fns prediction_df) s1)
    = trace_of (run (dashboard w ui fns prediction_df) s2) ∧
  result_of (run (dashboard w ui fns prediction_df) s1)
    = result_of (run (dashboard w ui fns prediction_df) s2).
Proof.
  intros Hs. apply (after_sidebar_selected_date ui) in Hs.
  rewrite !run_dashboard.
  generalize dependent (after_sidebar ui s1). intros s1'.
  generalize dependent (after_sidebar ui s2). intros s2' Hs.
  unfold main_pane, footer.
  pose proof (oblivious_query_and_show w ui fns) as Hq.
  generalize dependent (query_and_show w ui fns). intros Q Hq.
  unfold trace_of, result_of, date_is_selected in *. cbn.
  rewrite Hs.
  destruct (s2' !! "selected_date") as [date_str|]; cbn; [| done].
  destruct (truthy_obj date_str) as [[|]|e]; cbn; try done.
  destruct (Hq date_str prediction_df s1' s2') as [Ht Hr].
  destruct (run (Q date_str prediction_df) s1') as [[t1 s1''] r1],
           (run (Q date_str prediction_df) s2') as [[t2 s2''] r2].
  cbn in *. subst t2 r2. by destruct r1.
Qed.

(** X16: of the session, a run reads [selected_date] and nothing else.
    From two sessions that agree on [selected_date], the script shows
    the same page, makes the same calls and ends the same way.  What
    earlier runs stored under [anomalies], [selected_index] and
    [selected_anomaly] is never read back: a stored explanation is not
    shown again, the list is queried anew on every run. *)
Theorem app_reads_selected_date_only (w : env) (ui : widgets) (s1 s2 : gmap string pyobj) :
  s1 !! "selected_date" = s2 !! "selected_date" →
  trace_of (run (app w ui) s1) = trace_of (run (app w ui) s2) ∧
  result_of (run (app w ui) s1) = result_of (run (app w ui) s2).
Proof.
  intros Hs. unfold app.
  pose proof (oblivious_prologue w s1 s2) as [Ht Hr].
  assert (state_of (run (prologue w) s1) !! "selected_date"
          = state_of (run (prologue w) s2) !! "selected_date") as Hs'.
  { assert (writes_only ["prediction_df"; "functions_loaded"] (prologue w)) as Hw.
    { unfold prologue, page_header, init_session_state, load_data,
        load_prediction_data, load_prediction_data_body, read_pickle, import_main,
        import_functions, load_functions, require_prediction_df, set_item.
      writes_only_auto; apply writes_only_set_if_absent; solve [repeat constructor]. }
    rewrite !Hw; [done | ..]; rewrite !elem_of_cons, elem_of_nil; intuition discriminate. }
  pose proof (dashboard_reads_selected_date w ui) as Hd.
  generalize dependent (dashboard w ui). intros D Hd.
  generalize dependent (prologue w). intros P Ht Hr Hs'.
  unfold trace_of, state_of, result_of in *. cbn.
  destruct (run P s1) as [[t1 s1'] r1], (run P s2) as [[t2 s2'] r2]. cbn in *.
  subst t2 r2. destruct r1 as [ctx|e|]; try done.
  destruct (Hd ctx.1 ctx.2 s1' s2' Hs') as [Ht Hr].
  destruct (run (D ctx.1 ctx.2) s1') as [[t3 s3] r3],
           (run (D ctx.1 ctx.2) s2') as [[t4 s4] r4].
  cbn in *. by subst.
Qed.

Lemma app_reads_selected_date_only_witness :
  trace_of (run (app snapshot_env idle) explained_session)
    = trace_of (run (app snapshot_env idle) {[ "selected_date" := Val (PyStr "2011-06-01") ]}) ∧
  result_of (run (app snapshot_env idle) explained_session)
    = result_of (run (app snapshot_env idle) {[ "selected_date" := Val (PyStr "2011-06-01") ]}).
Proof.
  apply (app_reads_selected_date_only snapshot_env idle explained_session
           {[ "selected_date" := Val (PyStr "2011-06-01") ]}).
  reflexivity.
Defined.

(** ** What the collaborators are given *)

Lemma dashboard_calls_with (w : env) (ui : widgets)
    (fns : get_anomalies_fn * explain_fn) (prediction_df : pyobj) :
  emits_only (λ ev, ∀ df, table_of_call ev = Some df → df = prediction_df)
             (dashboard w ui fns prediction_df).
Proof.
  unfold dashboard, sidebar, main_pane, footer, query_and_show, show_anomalies,
    generate_explanation, show_explanation, show_anomaly_details, gather_aux,
    import_main, set_item, generation_failed_error.
  emits_only_auto.
  all: apply emits_only_emit; cbn; intros df Hdf; by simplify_eq.
Qed.

(** X17: whenever [get_anomalies_by_date] or [explain_single_anomaly] is
    called, in any run, the [prediction_df] it is given is the table
    lines 57-68 loaded, and it is not [None]. *)
Theorem collaborators_get_the_loaded_table (w : env) (ui : widgets)
    (s : gmap string pyobj) :
  Forall (λ ev, ∀ df, table_of_call ev = Some df →
                      result_of (run (load_data w) s) = Ok df ∧ is_none df = false)
         (trace_of (run (app w ui) s)).
Proof.
  pose proof (load_data_result w) as Hres.
  pose proof (load_data_emits_no_widget w) as Hld.
  pose proof (import_functions_emits_no_widget w) as Hif.
  pose proof (dashboard_calls_with w ui) as Hd.
  unfold app, prologue.
  generalize dependent (dashboard w ui). intros D Hd.
  generalize dependent (import_functions w). intros IF Hif.
  rewrite (Hres s).
  generalize dependent (load_data w). intros LD Hres Hld.
  unfold page_header, init_session_state, set_if_absent, require_prediction_df.
  cbn.
  set (s0 := match _ !! "functions_loaded" with Some _ => _ | None => _ end).
  specialize (Hres s0). specialize (Hld s0).
  unfold emits_only, trace_of, result_of in *.
  destruct (run LD s0) as [[t1 s1] r1]. cbn in *. subst r1.
  specialize (Hif s1).
  assert (∀ t, Forall (λ ev, is_workflow_event ev = false ∧ ev ≠ data_missing_error) t →
               Forall (λ ev, ∀ df, table_of_call ev = Some df →
                          first_present w = Ok df ∧ is_none df = false) t) as Hq.
  { intros t Ht. eapply Forall_impl; [exact Ht|]. by intros [] [Hwf _] df. }
  apply Hq in Hld. apply Hq in Hif. clear Hq.
  destruct (first_present w) as [a|e|] eqn:Hfp; cbn;
    [ destruct (run IF s1) as [[t2 s2] [fns|e|]]; cbn in *;
      [ destruct (is_none a) eqn:Hnone; cbn;
        [| specialize (Hd fns a s2);
           destruct (run (D fns a) s2) as [[t3 s3] r3]; cbn in * ] | | ] | | ].
  all: repeat (apply Forall_cons; split; [done|]).
  all: rewrite ?app_nil_r, ?Forall_app; split_and?; try done.
  - by repeat constructor.
  - eapply Forall_impl; [exact Hd|]. intros ev Hev df Hdf. by rewrite (Hev df Hdf).
Qed.

(** ** The date picker and the two buttons *)

(** X18: the date picker alone changes nothing.  As long as Find
    Anomalies is not pressed, the date in the picker has no part in the
    run: what the script shows, the calls it makes, the session and the
    outcome are those of any other date in the picker. *)
Theorem date_picker_alone_changes_nothing (w : env) (ui : widgets) (d : date)
    (s : gmap string pyobj) :
  find_anomalies_clicked ui = false →
  run (app w (with_date d ui)) s = run (app w ui) s.
Proof.
  intros Hclick. destruct ui as [d0 find choice generate]. cbn in Hclick. subst find.
  reflexivity.
Qed.

Lemma date_picker_alone_changes_nothing_witness :
  run (app snapshot_env (with_date (Date 2011 12 24) idle)) explained_session
    = run (app snapshot_env idle) explained_session.
Proof.
  apply (date_picker_alone_changes_nothing snapshot_env idle (Date 2011 12 24)
           explained_session).
  reflexivity.
Defined.

Lemma dashboard_without_generate (w : env) (ui : widgets)
    (fns : get_anomalies_fn * explain_fn) (prediction_df : pyobj) :
  generate_clicked ui = false →
  emits_only (λ ev, is_explanation_event ev = false) (dashboard w ui fns prediction_df) ∧
  writes_only ["selected_date"; "anomalies"; "selected_index"]
              (main_pane w ui fns prediction_df ;;; footer).
Proof.
  intros Hgen.
  unfold dashboard, sidebar, main_pane, footer, query_and_show, show_anomalies, set_item.
  rewrite Hgen. split.
  - emits_only_auto.
  - writes_only_auto.
Qed.

(** X19: an explanation is requested and shown only in the run in which
    Generate LLM Explanation is pressed.  In any other run the generator
    is not called, no spinner, text area, formatted report or metric
    appears, even when the session stores an explanation, and
    [selected_anomaly] is what the sidebar left: untouched, or cleared
    by Find Anomalies. *)
Theorem explanation_only_on_the_button (w : env) (ui : widgets)
    (fns : get_anomalies_fn * explain_fn) (prediction_df : pyobj) (s : gmap string pyobj) :
  generate_clicked ui = false →
  let r := run (dashboard w ui fns prediction_df) s in
  Forall (λ ev, is_explanation_event ev = false) (trace_of r) ∧
  state_of r !! "selected_anomaly" = after_sidebar ui s !! "selected_anomaly".
Proof.
  intros Hgen r. destruct (dashboard_without_generate w ui fns prediction_df Hgen)
    as [Hemit Hwrite].
  split; [apply Hemit|].
  subst r. rewrite run_dashboard.
  specialize (Hwrite (after_sidebar ui s) "selected_anomaly").
  unfold state_of in *.
  destruct (run _ (after_sidebar ui s)) as [[t s2] r]. cbn in *.
  apply Hwrite. rewrite !elem_of_cons, elem_of_nil. intuition discriminate.
Qed.

Lemma explanation_only_on_the_button_witness :
  Forall (λ ev, is_explanation_event ev = false)
         (trace_of (run (dashboard snapshot_env idle (sample_get_anomalies, sample_explain)
                           (Frame sample_rows)) explained_session)) ∧
  state_of (run (dashboard snapshot_env idle (sample_get_anomalies, sample_explain)
                   (Frame sample_rows)) explained_session) !! "selected_anomaly"
    = Some (Val (PyDict {[ "explanation" := PyStr "X" ]})).
Proof.
  apply (explanation_only_on_the_button snapshot_env idle
           (sample_get_anomalies, sample_explain) (Frame sample_rows) explained_session).
  reflexivity.
Defined.

(** ** The functions are looked for before the data is checked *)

(** X20: the functions are looked for before the data is checked.  When
    [anomaly_functions] cannot be imported and the fallback does not
    find both functions, a run in which loading the data did not raise
    stops at line 85: the functions error and its instructions are the
    last things shown, the data error is not shown even when there is no
    data, no widget of the workflow appears, and the session is as
    lines 17-21 initialised it. *)
Theorem missing_functions_stop_before_the_data_check (w : env) (ui : widgets)
    (s : gmap string pyobj) (e : exn) (prediction_df : pyobj) :
  anomaly_functions w = Raises e → is_ImportError e = true →
  both_found (fallback_functions w) = false →
  result_of (run (load_data w) s) = Ok prediction_df →
  let r := run (app w ui) s in
  result_of r = Stopped ∧
  (∃ t, trace_of r = t ++ functions_missing_events) ∧
  (data_missing_error ∉ trace_of r) ∧
  Forall (λ ev, is_workflow_event ev = false) (trace_of r) ∧
  state_of r = state_of (run init_session_state s).
Proof.
  intros He Himp Hnone Hdata.
  rewrite load_data_result in Hdata.
  pose proof (load_data_result w) as Hres.
  pose proof (load_data_emits_no_widget w) as Hld.
  assert (keeps_state (load_data w)) as Hkeep.
  { unfold load_data, load_prediction_data, load_prediction_data_body, read_pickle,
      import_main.
    keeps_state_auto. }
  assert (∀ s1, ∃ t,
            run (import_functions w) s1 = (t ++ functions_missing_events, s1, Stopped) ∧
            Forall (λ ev, ∃ m, ev = Import m) t) as Hif.
  { intros s1. unfold both_found, fallback_functions in Hnone.
    unfold import_functions, load_functions, import_main, set_item. cbn.
    rewrite He. cbn. rewrite Himp.
    destruct (code_new w) as [[[g|] [x|]]|e2]; cbn; try done;
      [| | | destruct (main_module w) as [[vars [g|] [x|]]|]; cbn; try done ].
    all: first
      [ solve [eexists [_; _]; split;
               [done | repeat (constructor; [by eexists|]); constructor]]
      | solve [eexists [_; _; _]; split;
               [done | repeat (constructor; [by eexists|]); constructor]] ]. }
  cbv zeta. unfold app, prologue.
  generalize dependent (dashboard w ui). intros D.
  generalize dependent (import_functions w). intros IF Hif.
  generalize dependent (load_data w). intros LD Hres Hld Hkeep.
  unfold page_header, init_session_state, set_if_absent, require_prediction_df.
  cbn.
  set (s0 := match _ !! "functions_loaded" with Some _ => _ | None => _ end).
  specialize (Hres s0). specialize (Hld s0). specialize (Hkeep s0).
  unfold emits_only, trace_of, state_of, result_of in *.
  destruct (run LD s0) as [[t1 s1] r1]. cbn in *. subst r1 s1. rewrite Hdata. cbn.
  destruct (Hif s0) as (t2 & -> & Himports). cbn.
  assert (Forall (λ ev, is_workflow_event ev = false ∧ ev ≠ data_missing_error) t2) as Ht2.
  { eapply Forall_impl; [exact Himports|]. by intros ev [m ->]. }
  split_and!; try done.
  - eexists (_ :: _ :: _ :: t1 ++ t2). cbn. by rewrite <- !app_assoc.
  - apply not_elem_of_Forall.
    repeat (apply Forall_cons; split; [done|]).
    rewrite !Forall_app. split_and!.
    + eapply Forall_impl; [exact Hld | by intros ? []].
    + eapply Forall_impl; [exact Ht2 | by intros ? []].
    + by repeat constructor.
  - repeat (apply Forall_cons; split; [done|]).
    rewrite !Forall_app. split_and!.
    + eapply Forall_impl; [exact Hld | by intros ? []].
    + eapply Forall_impl; [exact Ht2 | by intros ? []].
    + by repeat constructor.
Qed.

Lemma missing_functions_stop_before_the_data_check_witness :
  result_of (run (app no_functions_env idle) ∅) = Stopped ∧
  state_of (run (app no_functions_env idle) ∅)
    = {[ "prediction_df" := Val PyNone; "functions_loaded" := Val (PyBool false) ]}.
Proof.
  destruct (missing_functions_stop_before_the_data_check no_functions_env idle ∅
              (Exn ImportError "No module named 'anomaly_functions'") (Val PyNone))
    as (Hstop & _ & _ & _ & Hstate); [reflexivity | reflexivity | reflexivity | reflexivity |].
  split; [exact Hstop|]. rewrite Hstate. reflexivity.
Defined.

(** ** The commit of an explanation (lines 169-198) *)





